(** * generate-reqs: from a conda environment description to a pinned
      requirements.txt

    A shallow embedding of [src/yml_to_requirements.py].

    - Python [str] values are [string]s; a character is an 8-bit code point.
    - The dictionary built by [filter_conda_list_with_history] is a
      [gmap string string].
    - [subprocess.run], [os.getenv], [open] and [logging] act on an explicit
      [world]; the functions that use them live in a state-and-exception
      monad [M].
    - [yaml.safe_load] belongs to PyYAML, not to this repository: the
      functions that call it take it as a parameter. *)

From Stdlib Require Import ZArith Ascii String List.
From stdpp Require Import base option list gmap strings fin_maps pretty.

Local Open Scope string_scope.
Local Open Scope list_scope.

(** ** Python string built-ins *)

Module PyStr.

(** [s.startswith(p)] *)
Fixpoint startswith (p s : string) : bool :=
  match p, s with
  | EmptyString, _ => true
  | String a p', String b s' => if Ascii.eqb a b then startswith p' s' else false
  | String _ _, EmptyString => false
  end.

(** [needle in s] on two strings: [needle] occurs in [s] at some offset. *)
Fixpoint contains (needle s : string) : bool :=
  startswith needle s ||
  match s with
  | EmptyString => false
  | String _ s' => contains needle s'
  end.

(** [s.split(sep)] for a one-character separator. The result is never
    empty: a string without the separator is returned as its only field. *)
Fixpoint split (sep : ascii) (s : string) : list string :=
  match s with
  | EmptyString => [EmptyString]
  | String c s' =>
      if Ascii.eqb c sep then EmptyString :: split sep s'
      else match split sep s' with
           | [] => [String c EmptyString]
           | field :: fields => String c field :: fields
           end
  end.

(** [sep.join(fields)] *)
Fixpoint join (sep : string) (fields : list string) : string :=
  match fields with
  | [] => EmptyString
  | [f] => f
  | f :: rest => f +:+ sep +:+ join sep rest
  end.

(** The line boundaries of [str.splitlines] among 8-bit code points:
    LF, VT, FF, CR, FS, GS, RS and NEL. *)
Definition is_linebreak (c : ascii) : bool :=
  let n := nat_of_ascii c in
  Nat.eqb n 10 || Nat.eqb n 11 || Nat.eqb n 12 || Nat.eqb n 13 ||
  Nat.eqb n 28 || Nat.eqb n 29 || Nat.eqb n 30 || Nat.eqb n 133.

Definition CR : ascii := ascii_of_nat 13.
Definition LF : ascii := ascii_of_nat 10.

(** [s.splitlines()]: the lines without their terminators; CR LF is one
    boundary; a final terminator does not open a last, empty line. *)
Fixpoint splitlines (s : string) : list string :=
  match s with
  | EmptyString => []
  | String c s' =>
      if is_linebreak c then
        EmptyString ::
          match s' with
          | String d s'' =>
              if Ascii.eqb c CR && Ascii.eqb d LF then splitlines s''
              else splitlines s'
          | EmptyString => []
          end
      else match splitlines s' with
           | [] => [String c EmptyString]
           | line :: lines => String c line :: lines
           end
  end.

(** [s[i]] for every character of [s], as one-character strings: what
    iterating over a [str] yields. *)
Fixpoint chars (s : string) : list string :=
  match s with
  | EmptyString => []
  | String c s' => String c EmptyString :: chars s'
  end.

(** The code of every character: what iterating over a [bytes] value
    yields. *)
Fixpoint codes (s : string) : list nat :=
  match s with
  | EmptyString => []
  | String c s' => nat_of_ascii c :: codes s'
  end.

(** The characters of a string, for stating facts about separators. *)
Fixpoint occurs (c : ascii) (s : string) : Prop :=
  match s with
  | EmptyString => False
  | String a s' => a = c ∨ occurs c s'
  end.

End PyStr.

(** ** Values, exceptions and results *)

(** What [yaml.safe_load] returns: a [str], a [bytes] value (the tag
    [!!binary]), another scalar ([None], [bool], [int], [float], a date;
    kept as its source text), a [list], or a [dict] with its entries in
    document order. *)
#[warnings="-register-all"]
Inductive yaml : Type :=
  | YStr (s : string)
  | YBytes (b : string)
  | YScalar (text : string)
  | YSeq (items : list yaml)
  | YMap (entries : list (yaml * yaml)).

(** The exceptions the program can meet. *)
Inductive exn : Type :=
  | KeyError (key : string)
  | TypeError
  | AttributeError
  | YAMLError
  | OSError
  | CalledProcessError (returncode : Z) (stderr : string)
  | SystemExit (code : Z).

Inductive result (A : Type) : Type :=
  | Ok (a : A)
  | Raise (e : exn).
Arguments Ok {A} a.
Arguments Raise {A} e.

#[global] Instance result_ret : MRet result := λ A a, Ok a.
#[global] Instance result_bind : MBind result := λ A B f r,
  match r with
  | Ok a => f a
  | Raise e => Raise e
  end.

(** A list comprehension whose element expression can raise. *)
Fixpoint comprehension {A B : Type} (f : A → result B) (l : list A) : result (list B) :=
  match l with
  | [] => Ok []
  | a :: l' => b ← f a; bs ← comprehension f l'; Ok (b :: bs)
  end.

(** A [for] loop over [l] whose body updates the loop state and can raise. *)
Fixpoint for_each {A S : Type} (body : S → A → result S) (st : S) (l : list A) : result S :=
  match l with
  | [] => Ok st
  | a :: l' => st' ← body st a; for_each body st' l'
  end.

(** [l[0]]. It is only applied to the result of [split], which is never
    empty ([PyStrFacts.split_nonempty]), so the [IndexError] case does not arise. *)
Definition item0 (l : list string) : string := hd EmptyString l.

Module Py.

Definition is_key (k : string) (entry : yaml * yaml) : bool :=
  match entry.1 with
  | YStr s => String.eqb s k
  | _ => false
  end.

(** [k in d] for a [dict] given by its entries. *)
Definition dict_has (entries : list (yaml * yaml)) (k : string) : bool :=
  existsb (is_key k) entries.

(** [v[k]] with a [str] subscript. *)
Definition subscript (v : yaml) (k : string) : result yaml :=
  match v with
  | YMap entries =>
      match find (is_key k) entries with
      | Some entry => Ok entry.2
      | None => Raise (KeyError k)
      end
  | _ => Raise TypeError
  end.

(** The elements a [for] loop or a comprehension draws from [v]: the items
    of a list, the characters of a string, the integers of a bytes value,
    the keys of a dict. *)
Definition iterate (v : yaml) : result (list yaml) :=
  match v with
  | YSeq items => Ok items
  | YStr s => Ok (YStr <$> PyStr.chars s)
  | YBytes b => Ok ((λ code, YScalar (pretty code)) <$> PyStr.codes b)
  | YMap entries => Ok (entries.*1)
  | YScalar _ => Raise TypeError
  end.

(** [v.split('=')[0]]. A [str] is split; [bytes] has a [split] method too,
    which refuses the [str] separator with [TypeError]; the other values
    have no [split] method. *)
Definition split_name (v : yaml) : result string :=
  match v with
  | YStr s => Ok (item0 (PyStr.split "=" s))
  | YBytes _ => Raise TypeError
  | _ => Raise AttributeError
  end.

End Py.

(** ** The pure stages *)

(** The body of the loop of [parse_environment_yml], on the list
    [conda_packages] built so far. *)
Definition parse_dep (conda_packages : list string) (dep : yaml) : result (list string) :=
  match dep with
  | YStr d =>
      if negb (PyStr.contains "pip" d) && negb (PyStr.contains "python=" d)
      then Ok (conda_packages ++ [item0 (PyStr.split "=" d)])
      else Ok conda_packages
  | YMap entries =>
      if Py.dict_has entries "pip" then
        pip ← Py.subscript dep "pip";
        pkgs ← Py.iterate pip;
        names ← comprehension Py.split_name pkgs;
        Ok (conda_packages ++ names)
      else Ok conda_packages
  | _ => Ok conda_packages
  end.

Section WithYaml.

(** PyYAML's parser. *)
Variable safe_load : string → result yaml.

Definition parse_environment_yml (contents : string) : result (list string) :=
  env ← safe_load contents;
  dependencies ← Py.subscript env "dependencies";
  deps ← Py.iterate dependencies;
  for_each parse_dep [] deps.

End WithYaml.

(** The part of [get_conda_list_versions] after the subprocess call: the loop
    over the lines of its standard output. *)
Definition keep_package_version (conda_list : list string) (line : string) : list string :=
  if PyStr.contains "=" line
  then conda_list ++ [PyStr.join "=" (take 2 (PyStr.split "=" line))]
  else conda_list.

Definition conda_list_of_stdout (out : string) : list string :=
  foldl keep_package_version [] (PyStr.splitlines out).

(** The dict comprehension of [filter_conda_list_with_history]: the entries
    are stored in list order, and storing under a key already there replaces
    its value. *)
Definition store (d : gmap string string) (pkg : string) : gmap string string :=
  if PyStr.contains "=" pkg then <[item0 (PyStr.split "=" pkg) := pkg]> d else d.

Definition conda_dict_of (conda_list : list string) : gmap string string :=
  foldl store ∅ conda_list.

(** The list comprehension of [filter_conda_list_with_history], for a given
    dict. [conda_dict[pkg]] raises [KeyError] on a missing key. *)
Definition filter_with_dict (conda_dict : gmap string string)
    (history_packages : list string) : result (list string) :=
  for_each (λ filtered_packages pkg,
              if decide (is_Some (conda_dict !! pkg)) then
                match conda_dict !! pkg with
                | Some v => Ok (filtered_packages ++ [v])
                | None => Raise (KeyError pkg)
                end
              else Ok filtered_packages)
           [] history_packages.

Definition filter_conda_list_with_history
    (history_packages conda_list : list string) : result (list string) :=
  let conda_dict := conda_dict_of conda_list in
  filter_with_dict conda_dict history_packages.

(** The newline, as a string. *)
Definition nl : string := String PyStr.LF "".

(** What [write_requirements_txt] writes to the file. *)
Definition requirements_text (conda_packages : list string) : string :=
  foldl (λ written package, written +:+ (package +:+ nl)) "" conda_packages.

(** ** The world and the monad of the effectful stages *)

(** A finished subprocess, as [subprocess.run(..., text=True)] reports it. *)
Record completed : Type := Completed {
  returncode : Z;
  stdout : string;
  stderr : string
}.

Inductive level : Type := INFO | ERROR.

(** What the program reads and changes outside itself.
    - [conda_default_env]: the variable [CONDA_DEFAULT_ENV] of the process
      environment, [None] when unset;
    - [files]: the readable regular files, by path, with their text;
    - [writable]: whether [open(path, 'w')] succeeds;
    - [spawn]: what running a command line gives, [None] when the program
      cannot be started;
    - [logged]: the records emitted through [logging], oldest first;
    - [invoked]: the command lines run, oldest first. *)
Record world : Type := World {
  conda_default_env : option string;
  files : gmap string string;
  writable : string → bool;
  spawn : list string → option completed;
  logged : list (level * string);
  invoked : list (list string)
}.

Definition add_logged (record : level * string) (w : world) : world :=
  World (conda_default_env w) (files w) (writable w) (spawn w)
        (logged w ++ [record]) (invoked w).

Definition add_invoked (argv : list string) (w : world) : world :=
  World (conda_default_env w) (files w) (writable w) (spawn w)
        (logged w) (invoked w ++ [argv]).

Definition set_file (path text : string) (w : world) : world :=
  World (conda_default_env w) (<[path := text]> (files w)) (writable w) (spawn w)
        (logged w) (invoked w).

Definition M (A : Type) : Type := world → result A * world.

#[global] Instance M_ret : MRet M := λ A a w, (Ok a, w).
#[global] Instance M_bind : MBind M := λ A B f m w,
  match m w with
  | (Ok a, w') => f a w'
  | (Raise e, w') => (Raise e, w')
  end.

(** [raise e] *)
Definition raise {A : Type} (e : exn) : M A := λ w, (Raise e, w).

(** A pure stage run inside [M]. *)
Definition lift {A : Type} (r : result A) : M A := λ w, (r, w).

(** [try: body except ...: handler]; [handler e] is [None] when no [except]
    clause matches [e], which then propagates. *)
Definition try_except {A : Type} (body : M A) (handler : exn → option (M A)) : M A :=
  λ w,
    match body w with
    | (Ok a, w') => (Ok a, w')
    | (Raise e, w') =>
        match handler e with
        | Some h => h w'
        | None => (Raise e, w')
        end
    end.

Definition log (lv : level) (msg : string) : M unit := λ w,
  (Ok (), add_logged (lv, msg) w).

Definition logging_info : string → M unit := log INFO.
Definition logging_error : string → M unit := log ERROR.

(** [sys.exit(code)] *)
Definition sys_exit {A : Type} (code : Z) : M A := raise (SystemExit code).

(** [os.getenv('CONDA_DEFAULT_ENV')] *)
Definition os_getenv_CONDA_DEFAULT_ENV : M (option string) := λ w,
  (Ok (conda_default_env w), w).

(** [subprocess.run(argv, stdout=PIPE, stderr=PIPE, check=True, text=True)]:
    with [check=True] a non-zero return code raises [CalledProcessError]. *)
Definition subprocess_run (argv : list string) : M completed := λ w,
  let w' := add_invoked argv w in
  match spawn w argv with
  | None => (Raise OSError, w')
  | Some cp =>
      if (returncode cp =? 0)%Z then (Ok cp, w')
      else (Raise (CalledProcessError (returncode cp) (stderr cp)), w')
  end.

(** [with open(path, 'r') as file: file.read()] *)
Definition read_file (path : string) : M string := λ w,
  match files w !! path with
  | Some text => (Ok text, w)
  | None => (Raise OSError, w)
  end.

(** [with open(path, 'w') as file: ...] writing [text] in all: the file is
    created or truncated, then holds exactly [text]. *)
Definition write_file (path text : string) : M unit := λ w,
  if writable w path then (Ok (), set_file path text w)
  else (Raise OSError, w).

(** How an f-string shows a value that is a [str] or [None]. *)
Definition format_optional (v : option string) : string :=
  match v with
  | Some s => s
  | None => "None"
  end.

Definition conda_list_argv : list string := ["conda"; "list"; "--export"].
Definition conda_export_argv : list string := ["conda"; "env"; "export"; "--from-history"].

(** ** The effectful stages *)

Definition get_conda_list_versions : M (list string) :=
  try_except
    (result ← subprocess_run conda_list_argv;
     mret (conda_list_of_stdout (stdout result)))
    (λ e, match e with
          | CalledProcessError _ e_stderr =>
              Some (logging_error ("Failed to run conda list: " +:+ e_stderr);;
                    sys_exit 1)
          | _ => None
          end).

Definition write_requirements_txt (conda_packages : list string) (output_file : string) : M unit :=
  write_file output_file (requirements_text conda_packages);;
  logging_info ("requirements.txt generated with " +:+ pretty (length conda_packages)
                +:+ " packages at " +:+ output_file +:+ ".").

Definition get_active_conda_env : M (option string) :=
  conda_env ← os_getenv_CONDA_DEFAULT_ENV;
  if decide (conda_env = Some "base") then
    logging_error "You are using the 'base' conda environment. Please activate another environment.";;
    sys_exit 1
  else mret conda_env.

Definition export_conda_env : M string :=
  try_except
    (result ← subprocess_run conda_export_argv;
     mret (stdout result))
    (λ e, match e with
          | CalledProcessError _ e_stderr =>
              Some (logging_error ("Failed to export conda environment: " +:+ e_stderr);;
                    sys_exit 1)
          | _ => None
          end).

(** [not yml_file]: the argument was not given, or is the empty string. *)
Definition not_given (yml_file : option string) : bool :=
  match yml_file with
  | None | Some EmptyString => true
  | Some _ => false
  end.

(** The first statement of [main]: where [yml_contents] comes from. *)
Definition main_yml_contents (yml_file : option string) : M string :=
  if not_given yml_file then
    conda_env ← get_active_conda_env;
    logging_info ("Retrieving conda environment: " +:+ format_optional conda_env);;
    export_conda_env
  else read_file (default EmptyString yml_file).

Section Main.

Variable safe_load : string → result yaml.

(** The body of [main]. *)
Definition main (yml_file : option string) (output : string) : M unit :=
  yml_contents ← main_yml_contents yml_file;
  history_packages ← lift (parse_environment_yml safe_load yml_contents);
  conda_list ← get_conda_list_versions;
  conda_packages ← lift (filter_conda_list_with_history history_packages conda_list);
  write_requirements_txt conda_packages output.

End Main.

(** The exit code of the process for the way [main] ended: 0 on return, the
    code of [sys.exit], 1 for any other uncaught exception. *)
Definition exit_code {A : Type} (r : result A) : Z :=
  match r with
  | Ok _ => 0
  | Raise (SystemExit code) => code
  | Raise _ => 1
  end.

(** ** Predicates used in the statements *)

(** Whether a string has a line boundary of [str.splitlines] in it. *)
Fixpoint has_linebreak (s : string) : bool :=
  match s with
  | EmptyString => false
  | String c s' => PyStr.is_linebreak c || has_linebreak s'
  end.

(** Whether a value is a [str]. *)
Definition is_str (v : yaml) : bool :=
  match v with
  | YStr _ => true
  | _ => false
  end.

(** Whether a value is a [bytes] value. *)
Definition is_bytes (v : yaml) : bool :=
  match v with
  | YBytes _ => true
  | _ => false
  end.

(** Whether an exception is the one [sys.exit] raises. *)
Definition is_exit (e : exn) : bool :=
  match e with
  | SystemExit _ => true
  | _ => false
  end.

(** The shape [name=version] with no further '=' in either part. *)
Definition pinned (entry : string) : Prop :=
  ∃ name version,
    ¬ PyStr.occurs "=" name ∧ ¬ PyStr.occurs "=" version ∧
    entry = name +:+ "=" +:+ version.

(** ** Sample inputs *)

(** A parser that returns [doc] for every text. *)
Definition sample_safe_load (doc : yaml) : string → result yaml := λ _, Ok doc.

(** What the two conda commands answer, for a sample world. *)
Definition sample_spawn (export listing : option completed) : list string → option completed :=
  λ argv,
    if decide (argv = conda_export_argv) then export
    else if decide (argv = conda_list_argv) then listing
    else None.

(** A world with every path writable and nothing logged or run yet. *)
Definition sample_world (env : option string) (fs : gmap string string)
    (export listing : option completed) : world :=
  World env fs (λ _, true) (sample_spawn export listing) [] [].

(** An environment description and a package listing. *)
Definition sample_doc : yaml :=
  YMap [(YStr "name", YStr "demo");
        (YStr "dependencies",
         YSeq [YStr "flask"; YMap [(YStr "pip", YSeq [YStr "click=8.1"])]])].

Definition sample_listing : string :=
  "# platform: linux-64" +:+ nl +:+ "flask=2.3.1=h0" +:+ nl +:+ "click=8.1.0=h2" +:+ nl.

(** * Properties *)

(** ** Strings *)

Module PyStrFacts.
Import PyStr.

Lemma split_nonempty sep s : split sep s ≠ [].
Proof.
  destruct s as [|c s]; simpl; [done|].
  destruct (Ascii.eqb c sep); [done|].
  by destruct (split sep s).
Qed.

(** A string without the separator is its own single field. *)
Lemma split_without sep s : ¬ occurs sep s → split sep s = [s].
Proof.
  induction s as [|c s IH]; simpl; [done|].
  intros Hno.
  destruct (Ascii.eqb_spec c sep) as [->|Hne]; [tauto|].
  rewrite IH; [done | tauto].
Qed.

(** The first separator ends the first field. *)
Lemma split_first sep a b :
  ¬ occurs sep a → split sep (a +:+ String sep b) = a :: split sep b.
Proof.
  induction a as [|c a IH]; simpl.
  - intros _. by rewrite Ascii.eqb_refl.
  - intros Hno.
    destruct (Ascii.eqb_spec c sep) as [->|Hne]; [tauto|].
    rewrite IH; [done | tauto].
Qed.

Lemma startswith_app p r : startswith p (p +:+ r) = true.
Proof. induction p as [|c p IH]; simpl; [done|]. by rewrite Ascii.eqb_refl. Qed.

Lemma startswith_inv p s : startswith p s = true → ∃ r, s = p +:+ r.
Proof.
  revert s. induction p as [|c p IH]; intros s; simpl.
  - intros _. by exists s.
  - destruct s as [|d s]; [done|].
    destruct (Ascii.eqb_spec c d) as [->|]; [|done].
    intros [r ->]%IH. by exists r.
Qed.

Lemma contains_unfold needle s :
  contains needle s =
  startswith needle s ||
  match s with
  | EmptyString => false
  | String _ s' => contains needle s'
  end.
Proof. by destruct s. Qed.

(** [needle in s] holds exactly when [s] is some prefix, then [needle],
    then some suffix. *)
Lemma contains_spec needle s :
  contains needle s = true ↔ ∃ a b, s = a +:+ needle +:+ b.
Proof.
  split.
  - induction s as [|c s IH]; simpl.
    + rewrite orb_false_r. intros [r Hr]%startswith_inv. by exists "", r.
    + intros [[r Hr]%startswith_inv | Hin]%orb_true_iff.
      * by exists "", r.
      * destruct (IH Hin) as (a & b & ->). by exists (String c a), b.
  - intros (a & b & ->).
    induction a as [|c a IH]; simpl.
    + change ("" +:+ needle +:+ b) with (needle +:+ b).
      by rewrite contains_unfold, startswith_app.
    + rewrite IH. apply orb_true_r.
Qed.

Lemma contains_char c s : contains (String c "") s = true ↔ occurs c s.
Proof.
  induction s as [|d s IH]; simpl; [by split|].
  rewrite orb_true_iff, IH.
  destruct (Ascii.eqb_spec c d) as [->|Hne]; [split; intros _; by left|].
  split; [intros [?|?]; [done | by right] | intros [?|?]; [congruence | by right]].
Qed.

Lemma not_contains_char c s : contains (String c "") s = false ↔ ¬ occurs c s.
Proof. rewrite <- contains_char. by destruct (contains _ s). Qed.

(** A needle that has a character absent from [s] does not occur in [s]. *)
Lemma contains_needs_char c needle s :
  occurs c needle → ¬ occurs c s → contains needle s = false.
Proof.
  intros Hc Hs. destruct (contains needle s) eqn:E; [|done].
  apply contains_spec in E as (a & b & ->). exfalso. apply Hs. clear Hs.
  induction a as [|d a IH]; simpl; [|by right].
  induction needle as [|d n IHn]; simpl in *; [done|].
  destruct Hc as [->|Hc]; [by left | right; auto].
Qed.

(** The fields of a line: every string splits into a first field free of
    the separator and, when the separator occurs, a remainder. *)
Lemma split_cases sep s :
  (¬ occurs sep s ∧ split sep s = [s]) ∨
  (∃ a b, ¬ occurs sep a ∧ s = a +:+ String sep b ∧ split sep s = a :: split sep b).
Proof.
  induction s as [|c s IH]; simpl.
  - left. tauto.
  - destruct (Ascii.eqb_spec c sep) as [->|Hne].
    + right. exists "", s. simpl. tauto.
    + destruct IH as [[Hno ->] | (a & b & Hno & -> & ->)].
      * left. split; [tauto | done].
      * right. exists (String c a), b. simpl. split; [tauto | done].
Qed.

Lemma app_assoc (a b c : string) : (a +:+ b) +:+ c = a +:+ b +:+ c.
Proof. induction a as [|x a IH]; [done | exact (f_equal (String x) IH)]. Qed.

Lemma app_nil_r (a : string) : a +:+ "" = a.
Proof. induction a as [|x a IH]; [done | exact (f_equal (String x) IH)]. Qed.

Example split_three_fields :
  split "=" "numpy=1.2.3=py39h1" = ["numpy"; "1.2.3"; "py39h1"].
Proof. reflexivity. Qed.

Example split_empty_string : split "=" "" = [""].
Proof. reflexivity. Qed.

Example split_trailing_separator : split "=" "a=" = ["a"; ""].
Proof. reflexivity. Qed.

Example join_two_fields : join "=" ["numpy"; "1.2.3"] = "numpy=1.2.3".
Proof. reflexivity. Qed.

Example splitlines_boundaries :
  splitlines (String "a" (String CR (String LF (String LF (String "b" (String LF ""))))))
  = ["a"; ""; "b"].
Proof. reflexivity. Qed.

Example contains_substring :
  contains "pip" "pipdeptree" = true ∧ contains "python=" "ipython=7.0" = true ∧
  contains "pip" "numpy" = false.
Proof. repeat split. Qed.

End PyStrFacts.

(** ** The dependency extractor *)

Lemma for_each_app {A S : Type} (body : S → A → result S) st l1 l2 :
  for_each body st (l1 ++ l2) = st' ← for_each body st l1; for_each body st' l2.
Proof.
  revert st. induction l1 as [|a l1 IH]; intros st; simpl; [done|].
  destruct (body st a) as [st'|e]; simpl; [apply IH | done].
Qed.

(** The loop body only appends to the list built so far. *)
Lemma parse_dep_acc acc dep :
  parse_dep acc dep = names ← parse_dep [] dep; Ok (acc ++ names).
Proof.
  destruct dep as [d|b|t|items|entries]; simpl.
  - destruct (_ && _); simpl; by rewrite ?app_nil_r.
  - by rewrite app_nil_r.
  - by rewrite app_nil_r.
  - by rewrite app_nil_r.
  - destruct (Py.dict_has entries "pip"); simpl; [|by rewrite app_nil_r].
    destruct (find _ entries) as [entry|]; simpl; [|done].
    destruct (Py.iterate entry.2) as [pkgs|e]; simpl; [|done].
    by destruct (comprehension Py.split_name pkgs).
Qed.

Lemma parse_deps_acc acc deps :
  for_each parse_dep acc deps = names ← for_each parse_dep [] deps; Ok (acc ++ names).
Proof.
  revert acc. induction deps as [|dep deps IH]; intros acc; simpl.
  - by rewrite app_nil_r.
  - rewrite parse_dep_acc.
    destruct (parse_dep [] dep) as [names|e]; simpl; [|done].
    rewrite (IH (acc ++ names)), (IH names).
    destruct (for_each parse_dep [] deps) as [more|e]; simpl; [|done].
    by rewrite app_assoc.
Qed.

(** A plain string with ['pip'] or ['python='] somewhere in it leaves the
    list as it is. *)
Lemma parse_dep_marker acc a b s :
  s = a +:+ "pip" +:+ b ∨ s = a +:+ "python=" +:+ b →
  parse_dep acc (YStr s) = Ok acc.
Proof.
  intros Hs. simpl.
  destruct Hs as [Hs|Hs].
  - assert (PyStr.contains "pip" s = true) as -> by (apply PyStrFacts.contains_spec; eauto).
    done.
  - assert (PyStr.contains "python=" s = true) as -> by (apply PyStrFacts.contains_spec; eauto).
    by rewrite andb_false_r.
Qed.

(** A plain string without ['='] and without ['pip'] is appended whole. *)
Lemma parse_dep_plain acc s :
  ¬ PyStr.occurs "=" s → PyStr.contains "pip" s = false →
  parse_dep acc (YStr s) = Ok (acc ++ [s]).
Proof.
  intros Heq Hpip. simpl. rewrite Hpip.
  rewrite (PyStrFacts.contains_needs_char "=" "python=" s); [|simpl; tauto|done].
  simpl. by rewrite PyStrFacts.split_without.
Qed.

(** C5: the dependency list
    ["numpy=1.2", "python=3.9", {"pip": ["flask=2.0"]}] is extracted to
    exactly ["numpy", "flask"]: the pins are cut at the first '=', the
    Python-version entry is left out, the pip group is flattened in place. *)
Theorem extractor_example safe_load contents env :
  safe_load contents = Ok env →
  Py.subscript env "dependencies" =
    Ok (YSeq [YStr "numpy=1.2"; YStr "python=3.9";
              YMap [(YStr "pip", YSeq [YStr "flask=2.0"])]]) →
  parse_environment_yml safe_load contents = Ok ["numpy"; "flask"].
Proof.
  intros Hload Hdeps. unfold parse_environment_yml.
  rewrite Hload. simpl. rewrite Hdeps. reflexivity.
Qed.

Lemma extractor_example_witness :
  let doc := YMap [(YStr "name", YStr "demo");
                   (YStr "dependencies",
                    YSeq [YStr "numpy=1.2"; YStr "python=3.9";
                          YMap [(YStr "pip", YSeq [YStr "flask=2.0"])]])] in
  sample_safe_load doc "environment" = Ok doc ∧
  Py.subscript doc "dependencies" =
    Ok (YSeq [YStr "numpy=1.2"; YStr "python=3.9";
              YMap [(YStr "pip", YSeq [YStr "flask=2.0"])]]) ∧
  parse_environment_yml (sample_safe_load doc) "environment" = Ok ["numpy"; "flask"].
Proof.
  intros doc. split; [reflexivity|]. split; [reflexivity|].
  apply (extractor_example (sample_safe_load doc) "environment" doc); reflexivity.
Defined.

(** C9, as stated, fails: "pip" is a plain dependency string without '=',
    and the extractor does not yield it. *)
Lemma plain_string_unchanged_fails :
  ¬ (∀ safe_load contents env s,
       PyStr.contains "=" s = false →
       safe_load contents = Ok env →
       Py.subscript env "dependencies" = Ok (YSeq [YStr s]) →
       parse_environment_yml safe_load contents = Ok [s]).
Proof.
  intros H.
  specialize (H (sample_safe_load (YMap [(YStr "dependencies", YSeq [YStr "pip"])]))
                "environment" _ "pip" eq_refl eq_refl eq_refl).
  vm_compute in H. discriminate H.
Qed.

(** C9, amended: a plain dependency string that contains neither '=' nor
    'pip' is appended unchanged to the names extracted so far, and a
    dependency list made of that string alone is extracted to that string
    alone; "requests" is such a string. *)
Theorem plain_string_unchanged :
  (∀ conda_packages s,
     PyStr.contains "=" s = false → PyStr.contains "pip" s = false →
     parse_dep conda_packages (YStr s) = Ok (conda_packages ++ [s])) ∧
  (∀ safe_load contents env s,
     PyStr.contains "=" s = false → PyStr.contains "pip" s = false →
     safe_load contents = Ok env →
     Py.subscript env "dependencies" = Ok (YSeq [YStr s]) →
     parse_environment_yml safe_load contents = Ok [s]) ∧
  PyStr.contains "=" "requests" = false ∧ PyStr.contains "pip" "requests" = false.
Proof.
  split; [|split; [|done]].
  - intros acc s Heq%PyStrFacts.not_contains_char Hpip. by apply parse_dep_plain.
  - intros safe_load contents env s Heq%PyStrFacts.not_contains_char Hpip Hload Hdeps.
    unfold parse_environment_yml. rewrite Hload. simpl. rewrite Hdeps.
    cbn [Py.iterate mbind result_bind for_each].
    by rewrite parse_dep_plain.
Qed.

Lemma plain_string_unchanged_witness :
  parse_dep ["numpy"] (YStr "requests") = Ok ["numpy"; "requests"] ∧
  parse_environment_yml
    (sample_safe_load (YMap [(YStr "dependencies", YSeq [YStr "requests"])]))
    "environment" = Ok ["requests"].
Proof.
  split.
  - apply (proj1 plain_string_unchanged ["numpy"] "requests"); reflexivity.
  - apply (proj1 (proj2 plain_string_unchanged)
             (sample_safe_load (YMap [(YStr "dependencies", YSeq [YStr "requests"])]))
             "environment" (YMap [(YStr "dependencies", YSeq [YStr "requests"])])
             "requests"); reflexivity.
Defined.

(** C10: a plain dependency string with 'pip' or 'python=' anywhere in it
    is skipped: the description yields the same names as the description
    without that entry. So "pipdeptree" and "ipython=7.0" are left out like
    "pip" and "python=3.9". *)
Theorem substring_markers_skipped :
  (∀ safe_load contents contents' env env' before s after a b,
     s = a +:+ "pip" +:+ b ∨ s = a +:+ "python=" +:+ b →
     safe_load contents = Ok env →
     safe_load contents' = Ok env' →
     Py.subscript env "dependencies" = Ok (YSeq (before ++ YStr s :: after)) →
     Py.subscript env' "dependencies" = Ok (YSeq (before ++ after)) →
     parse_environment_yml safe_load contents = parse_environment_yml safe_load contents') ∧
  (∀ safe_load contents env,
     safe_load contents = Ok env →
     Py.subscript env "dependencies" =
       Ok (YSeq [YStr "pipdeptree"; YStr "numpy"; YStr "ipython=7.0"]) →
     parse_environment_yml safe_load contents = Ok ["numpy"]).
Proof.
  split.
  - intros safe_load contents contents' env env' before s after a b Hs Hl Hl' Hd Hd'.
    unfold parse_environment_yml. rewrite Hl, Hl'. simpl. rewrite Hd, Hd'.
    cbn [Py.iterate mbind result_bind].
    rewrite !for_each_app.
    destruct (for_each parse_dep [] before) as [names|e];
      cbn [mbind result_bind for_each]; [|done].
    by rewrite (parse_dep_marker names a b s Hs).
  - intros safe_load contents env Hl Hd.
    unfold parse_environment_yml. rewrite Hl. simpl. rewrite Hd. reflexivity.
Qed.

Lemma substring_markers_skipped_witness :
  let with_entry := YMap [(YStr "dependencies", YSeq [YStr "numpy"; YStr "pipdeptree"; YStr "flask=2"])] in
  let without := YMap [(YStr "dependencies", YSeq [YStr "numpy"; YStr "flask=2"])] in
  let load := λ contents : string, if decide (contents = "with") then Ok with_entry else Ok without in
  "pipdeptree" = "" +:+ "pip" +:+ "deptree" ∧
  parse_environment_yml load "with" = parse_environment_yml load "without" ∧
  parse_environment_yml
    (sample_safe_load (YMap [(YStr "dependencies",
                              YSeq [YStr "pipdeptree"; YStr "numpy"; YStr "ipython=7.0"])]))
    "environment" = Ok ["numpy"].
Proof.
  intros with_entry without load. split; [reflexivity|]. split.
  - apply (proj1 substring_markers_skipped load "with" "without" with_entry without
             [YStr "numpy"] "pipdeptree" [YStr "flask=2"] "" "deptree");
      [left|..]; reflexivity.
  - eapply (proj2 substring_markers_skipped); reflexivity.
Defined.

(** ** The installed-version lookup *)

Lemma keep_package_version_acc conda_list line :
  keep_package_version conda_list line = conda_list ++ keep_package_version [] line.
Proof.
  unfold keep_package_version.
  destruct (PyStr.contains "=" line); simpl; by rewrite ?app_nil_r.
Qed.

Lemma keep_package_version_lines conda_list lines :
  foldl keep_package_version conda_list lines =
  conda_list ++ concat (map (keep_package_version []) lines).
Proof.
  revert conda_list. induction lines as [|line lines IH]; intros acc; simpl.
  - by rewrite app_nil_r.
  - rewrite IH, (keep_package_version_acc acc line). by rewrite app_assoc.
Qed.

(** The first two fields of a line that has a '='. *)
Lemma first_two_fields line :
  PyStr.contains "=" line = true →
  ∃ name version,
    ¬ PyStr.occurs "=" name ∧ ¬ PyStr.occurs "=" version ∧
    (line = name +:+ "=" +:+ version ∨
     ∃ build, line = name +:+ "=" +:+ version +:+ "=" +:+ build) ∧
    item0 (PyStr.split "=" line) = name ∧
    PyStr.join "=" (take 2 (PyStr.split "=" line)) = name +:+ "=" +:+ version.
Proof.
  intros Hin%PyStrFacts.contains_char.
  destruct (PyStrFacts.split_cases "=" line) as [[Hno _]|(name & rest & Hname & -> & ->)];
    [done|].
  destruct (PyStrFacts.split_cases "=" rest) as [[Hno ->]|(version & build & Hv & -> & ->)].
  - exists name, rest. repeat split; [done..|by left].
  - exists name, version. repeat split; [done..|]. right. by exists build.
Qed.

(** C6: a line without '=' adds nothing to the list; a line with '=' adds
    its first two '='-delimited fields joined by '=', whether a third field
    follows or not; the list is made of the lines of the listing in this
    way, in their order. The line "numpy=1.2.3=py39h1" gives
    "numpy=1.2.3". *)
Theorem lookup_parser_lines :
  (∀ conda_list line,
     PyStr.contains "=" line = false →
     keep_package_version conda_list line = conda_list) ∧
  (∀ conda_list line,
     PyStr.contains "=" line = true →
     ∃ name version,
       ¬ PyStr.occurs "=" name ∧ ¬ PyStr.occurs "=" version ∧
       (line = name +:+ "=" +:+ version ∨
        ∃ build, line = name +:+ "=" +:+ version +:+ "=" +:+ build) ∧
       keep_package_version conda_list line = conda_list ++ [name +:+ "=" +:+ version]) ∧
  (∀ out,
     conda_list_of_stdout out =
     concat (map (keep_package_version []) (PyStr.splitlines out))) ∧
  conda_list_of_stdout ("numpy=1.2.3=py39h1" +:+ nl +:+ "no pin here" +:+ nl)
    = ["numpy=1.2.3"].
Proof.
  repeat split.
  - intros acc line Hno. unfold keep_package_version. by rewrite Hno.
  - intros acc line Hin.
    destruct (first_two_fields line Hin) as (name & version & Hn & Hv & Hshape & _ & Hjoin).
    exists name, version. repeat split; [done..|].
    unfold keep_package_version. by rewrite Hin, Hjoin.
  - intros out. unfold conda_list_of_stdout. by rewrite keep_package_version_lines.
Qed.

Lemma lookup_parser_lines_witness :
  keep_package_version ["a=1"] "# platform: linux-64" = ["a=1"] ∧
  ∃ name version,
    ¬ PyStr.occurs "=" name ∧ ¬ PyStr.occurs "=" version ∧
    ("numpy=1.2.3=py39h1" = name +:+ "=" +:+ version ∨
     ∃ build, "numpy=1.2.3=py39h1" = name +:+ "=" +:+ version +:+ "=" +:+ build) ∧
    keep_package_version ["a=1"] "numpy=1.2.3=py39h1" = ["a=1"] ++ [name +:+ "=" +:+ version].
Proof.
  split.
  - apply (proj1 lookup_parser_lines ["a=1"] "# platform: linux-64"). reflexivity.
  - apply (proj1 (proj2 lookup_parser_lines) ["a=1"] "numpy=1.2.3=py39h1"). reflexivity.
Defined.

(** ** The lookup mapping *)

Lemma conda_dict_of_fold conda_list : conda_dict_of conda_list = foldl store ∅ conda_list.
Proof. reflexivity. Qed.

(** Entries stored under other names leave a key as it is. *)
Lemma store_others d conda_list k :
  (∀ pkg, pkg ∈ conda_list → PyStr.contains "=" pkg = true →
          item0 (PyStr.split "=" pkg) ≠ k) →
  foldl store d conda_list !! k = d !! k.
Proof.
  revert d. induction conda_list as [|pkg l IH]; intros d Hother; simpl; [done|].
  rewrite IH; [|intros p Hp; apply Hother; by right].
  unfold store. destruct (PyStr.contains "=" pkg) eqn:E; [|done].
  rewrite lookup_insert_ne; [done|]. apply Hother; [by left | done].
Qed.

(** Every value of the mapping is an entry of the list, stored under its
    own name. *)
Lemma conda_dict_of_sound conda_list k v :
  conda_dict_of conda_list !! k = Some v →
  v ∈ conda_list ∧ PyStr.contains "=" v = true ∧ item0 (PyStr.split "=" v) = k.
Proof.
  rewrite conda_dict_of_fold. revert k v.
  induction conda_list as [|pkg l IH] using rev_ind; intros k v; simpl.
  - by rewrite lookup_empty.
  - rewrite foldl_snoc. unfold store at 1.
    destruct (PyStr.contains "=" pkg) eqn:E.
    + rewrite lookup_insert. case_decide as Hk.
      * intros [= <-]. split; [|done]. apply elem_of_app. right. by left.
      * intros Hv. destruct (IH k v Hv) as (? & ? & ?).
        split; [|done]. apply elem_of_app. by left.
    + intros Hv. destruct (IH k v Hv) as (? & ? & ?).
      split; [|done]. apply elem_of_app. by left.
Qed.

(** C1, as stated, fails: with two entries for one name the mapping holds
    the second, and the filter stage outputs the second. *)
Lemma first_wins_fails :
  conda_list_of_stdout ("a=1=x" +:+ nl +:+ "a=2=y" +:+ nl) = ["a=1"; "a=2"] ∧
  conda_dict_of ["a=1"; "a=2"] !! "a" = Some "a=2" ∧
  conda_dict_of ["a=1"; "a=2"] !! "a" ≠ Some "a=1" ∧
  filter_conda_list_with_history ["a"] ["a=1"; "a=2"] = Ok ["a=2"].
Proof.
  split; [vm_compute; reflexivity|].
  split; [vm_compute; reflexivity|].
  split; [vm_compute; discriminate | vm_compute; reflexivity].
Qed.

(** C1, amended: the mapping is last-wins. An entry with a '=' that is
    followed by no other entry of the same name is the value of its name,
    whatever precedes it. *)
Theorem lookup_last_wins before pkg after :
  PyStr.contains "=" pkg = true →
  (∀ later, later ∈ after → PyStr.contains "=" later = true →
            item0 (PyStr.split "=" later) ≠ item0 (PyStr.split "=" pkg)) →
  conda_dict_of (before ++ pkg :: after) !! item0 (PyStr.split "=" pkg) = Some pkg.
Proof.
  intros Hpkg Hafter. rewrite conda_dict_of_fold, foldl_app. simpl.
  rewrite store_others; [|done].
  unfold store at 1. rewrite Hpkg. apply lookup_insert_eq.
Qed.

Lemma lookup_last_wins_witness :
  PyStr.contains "=" "a=2" = true ∧
  conda_dict_of (["a=1"; "b=7"] ++ "a=2" :: ["c=3"]) !! item0 (PyStr.split "=" "a=2") = Some "a=2".
Proof.
  split; [reflexivity|].
  apply (lookup_last_wins ["a=1"; "b=7"] "a=2" ["c=3"]).
  - reflexivity.
  - intros later Hin _. apply list_elem_of_singleton in Hin as ->.
    vm_compute. discriminate.
Defined.

(** ** The filter stage *)

Lemma filter_with_dict_acc (conda_dict : gmap string string) filtered history :
  for_each (λ filtered_packages pkg,
              if decide (is_Some (conda_dict !! pkg)) then
                match conda_dict !! pkg with
                | Some v => Ok (filtered_packages ++ [v])
                | None => Raise (KeyError pkg)
                end
              else Ok filtered_packages)
           filtered history
  = Ok (filtered ++ omap (λ pkg, conda_dict !! pkg) history).
Proof.
  revert filtered. induction history as [|pkg history IH]; intros filtered; simpl.
  - by rewrite app_nil_r.
  - destruct (conda_dict !! pkg) as [v|] eqn:E.
    + rewrite decide_True by eauto. simpl. rewrite IH. by rewrite <- app_assoc.
    + rewrite decide_False by (intros [? [=]]). simpl. apply IH.
Qed.

Lemma filter_with_dict_omap (conda_dict : gmap string string) history :
  filter_with_dict conda_dict history = Ok (omap (λ pkg, conda_dict !! pkg) history).
Proof. unfold filter_with_dict. by rewrite filter_with_dict_acc. Qed.

Lemma filter_conda_list_with_history_omap history conda_list :
  filter_conda_list_with_history history conda_list
  = Ok (omap (λ pkg, conda_dict_of conda_list !! pkg) history).
Proof. apply filter_with_dict_omap. Qed.

(** C2: for every mapping and every sequence of names, the filter stage
    returns the values of the names that are keys of the mapping, in the
    order of the names, and nothing for the other names; it never raises.
    Names ["b","a"] with {"a":"a=1","b":"b=2"} give ["b=2","a=1"]. *)
Theorem filter_in_extractor_order :
  (∀ (conda_dict : gmap string string) history_packages,
     filter_with_dict conda_dict history_packages
     = Ok (omap (λ pkg, conda_dict !! pkg) history_packages)) ∧
  (∀ history_packages conda_list,
     filter_conda_list_with_history history_packages conda_list
     = Ok (omap (λ pkg, conda_dict_of conda_list !! pkg) history_packages)) ∧
  filter_with_dict (<["b" := "b=2"]> (<["a" := "a=1"]> ∅)) ["b"; "a"] = Ok ["b=2"; "a=1"] ∧
  filter_with_dict (<["b" := "b=2"]> (<["a" := "a=1"]> ∅)) ["b"; "zlib"; "a"] = Ok ["b=2"; "a=1"] ∧
  filter_conda_list_with_history ["b"; "a"] ["a=1"; "b=2"] = Ok ["b=2"; "a=1"].
Proof.
  split; [exact filter_with_dict_omap|].
  split; [exact filter_conda_list_with_history_omap|].
  repeat split; vm_compute; reflexivity.
Qed.

(** The file text is each entry followed by a newline, in order. *)
Lemma requirements_text_acc written conda_packages :
  foldl (λ written package, written +:+ (package +:+ nl)) written conda_packages
  = written +:+ requirements_text conda_packages.
Proof.
  unfold requirements_text.
  revert written. induction conda_packages as [|e l IH]; intros written; simpl.
  - by rewrite PyStrFacts.app_nil_r.
  - rewrite IH, (IH ("" +:+ e +:+ nl)).
    change ("" +:+ e +:+ nl) with (e +:+ nl).
    by rewrite !PyStrFacts.app_assoc.
Qed.

Lemma requirements_text_cons entry conda_packages :
  requirements_text (entry :: conda_packages)
  = entry +:+ nl +:+ requirements_text conda_packages.
Proof.
  unfold requirements_text at 1. simpl. rewrite requirements_text_acc.
  change ("" +:+ entry +:+ nl) with (entry +:+ nl).
  by rewrite PyStrFacts.app_assoc.
Qed.

(** Every entry the filter stage returns is the value of a key of the
    mapping that is also one of the extracted names, and that key is the
    entry's own name. *)
Lemma filtered_entry_names history conda_list entries entry :
  filter_conda_list_with_history history conda_list = Ok entries →
  entry ∈ entries →
  item0 (PyStr.split "=" entry) ∈ history ∧
  conda_dict_of conda_list !! item0 (PyStr.split "=" entry) = Some entry.
Proof.
  rewrite filter_conda_list_with_history_omap. intros [= <-].
  intros (pkg & Hpkg & Hlookup)%list_elem_of_omap.
  destruct (conda_dict_of_sound _ _ _ Hlookup) as (_ & _ & Hname).
  by rewrite Hname.
Qed.

(** ** The effectful stages *)

Lemma M_bind_run {A B : Type} (m : M A) (f : A → M B) w :
  (m ≫= f) w =
  match m w with
  | (Ok a, w') => f a w'
  | (Raise e, w') => (Raise e, w')
  end.
Proof. reflexivity. Qed.

Lemma get_active_conda_env_run w :
  get_active_conda_env w =
  if decide (conda_default_env w = Some "base")
  then (Raise (SystemExit 1),
        add_logged (ERROR, "You are using the 'base' conda environment. Please activate another environment.") w)
  else (Ok (conda_default_env w), w).
Proof.
  unfold get_active_conda_env, os_getenv_CONDA_DEFAULT_ENV, mbind, M_bind.
  by destruct (decide (conda_default_env w = Some "base")).
Qed.

Lemma export_conda_env_run w :
  export_conda_env w =
  match spawn w conda_export_argv with
  | None => (Raise OSError, add_invoked conda_export_argv w)
  | Some cp =>
      if (returncode cp =? 0)%Z
      then (Ok (stdout cp), add_invoked conda_export_argv w)
      else (Raise (SystemExit 1),
            add_logged (ERROR, "Failed to export conda environment: " +:+ stderr cp)
                       (add_invoked conda_export_argv w))
  end.
Proof.
  unfold export_conda_env, try_except, subprocess_run, mbind, M_bind.
  destruct (spawn w conda_export_argv) as [cp|]; [|done].
  by destruct (returncode cp =? 0)%Z.
Qed.

Lemma get_conda_list_versions_run w :
  get_conda_list_versions w =
  match spawn w conda_list_argv with
  | None => (Raise OSError, add_invoked conda_list_argv w)
  | Some cp =>
      if (returncode cp =? 0)%Z
      then (Ok (conda_list_of_stdout (stdout cp)), add_invoked conda_list_argv w)
      else (Raise (SystemExit 1),
            add_logged (ERROR, "Failed to run conda list: " +:+ stderr cp)
                       (add_invoked conda_list_argv w))
  end.
Proof.
  unfold get_conda_list_versions, try_except, subprocess_run, mbind, M_bind.
  destruct (spawn w conda_list_argv) as [cp|]; [|done].
  by destruct (returncode cp =? 0)%Z.
Qed.

Lemma write_requirements_txt_run conda_packages output_file w :
  write_requirements_txt conda_packages output_file w =
  if writable w output_file
  then (Ok (),
        add_logged (INFO, "requirements.txt generated with " +:+ pretty (length conda_packages)
                          +:+ " packages at " +:+ output_file +:+ ".")
                   (set_file output_file (requirements_text conda_packages) w))
  else (Raise OSError, w).
Proof.
  unfold write_requirements_txt, write_file, mbind, M_bind.
  by destruct (writable w output_file).
Qed.

Lemma main_yml_contents_run yml_file w :
  main_yml_contents yml_file w =
  if not_given yml_file then
    if decide (conda_default_env w = Some "base")
    then (Raise (SystemExit 1),
          add_logged (ERROR, "You are using the 'base' conda environment. Please activate another environment.") w)
    else export_conda_env
           (add_logged (INFO, "Retrieving conda environment: " +:+ format_optional (conda_default_env w)) w)
  else match files w !! default "" yml_file with
       | Some text => (Ok text, w)
       | None => (Raise OSError, w)
       end.
Proof.
  unfold main_yml_contents. destruct (not_given yml_file); [|done].
  unfold mbind, M_bind. rewrite get_active_conda_env_run.
  by destruct (decide (conda_default_env w = Some "base")).
Qed.

(** The first statement of [main] writes no file and leaves the
    environment and the answers of the commands as they are. *)
Lemma main_yml_contents_frame yml_file w :
  let w1 := (main_yml_contents yml_file w).2 in
  conda_default_env w1 = conda_default_env w ∧ files w1 = files w ∧
  writable w1 = writable w ∧ spawn w1 = spawn w.
Proof.
  rewrite main_yml_contents_run.
  destruct (not_given yml_file).
  - destruct (decide _); [done|]. rewrite export_conda_env_run. simpl.
    destruct (spawn w conda_export_argv) as [cp|]; [|done].
    by destruct (returncode cp =? 0)%Z.
  - by destruct (files w !! default "" yml_file).
Qed.

(** [main] once [yml_contents] is there. *)
Lemma main_run safe_load yml_file output w :
  main safe_load yml_file output w =
  match main_yml_contents yml_file w with
  | (Raise e, w1) => (Raise e, w1)
  | (Ok yml_contents, w1) =>
      match parse_environment_yml safe_load yml_contents with
      | Raise e => (Raise e, w1)
      | Ok history_packages =>
          match get_conda_list_versions w1 with
          | (Raise e, w2) => (Raise e, w2)
          | (Ok conda_list, w2) =>
              write_requirements_txt
                (omap (λ pkg, conda_dict_of conda_list !! pkg) history_packages) output w2
          end
      end
  end.
Proof.
  unfold main. rewrite M_bind_run.
  destruct (main_yml_contents yml_file w) as [[c|e] w1]; [|done].
  rewrite M_bind_run. unfold lift at 1.
  destruct (parse_environment_yml safe_load c) as [history|e]; [|done].
  rewrite M_bind_run.
  destruct (get_conda_list_versions w1) as [[conda_list|e] w2]; [|done].
  rewrite M_bind_run. unfold lift.
  by rewrite filter_conda_list_with_history_omap.
Qed.

(** A successful run, read backwards. *)
Lemma main_ok_inv safe_load yml_file output w w' :
  main safe_load yml_file output w = (Ok (), w') →
  ∃ yml_contents history_packages cp,
    (main_yml_contents yml_file w).1 = Ok yml_contents ∧
    parse_environment_yml safe_load yml_contents = Ok history_packages ∧
    spawn w conda_list_argv = Some cp ∧ returncode cp = 0%Z ∧
    writable w output = true ∧
    files w' =
      <[output := requirements_text
                    (omap (λ pkg, conda_dict_of (conda_list_of_stdout (stdout cp)) !! pkg)
                          history_packages)]> (files w).
Proof.
  rewrite main_run.
  pose proof (main_yml_contents_frame yml_file w) as (_ & Hfiles & Hwritable & Hspawn).
  destruct (main_yml_contents yml_file w) as [[c|e] w1]; [|done].
  simpl in Hfiles, Hwritable, Hspawn.
  destruct (parse_environment_yml safe_load c) as [history|e] eqn:Hparse; [|done].
  rewrite get_conda_list_versions_run, Hspawn.
  destruct (spawn w conda_list_argv) as [cp|]; [|done].
  destruct (returncode cp =? 0)%Z eqn:Hcode; [|done].
  rewrite write_requirements_txt_run. simpl. rewrite Hwritable.
  destruct (writable w output) eqn:Hw; [|done].
  intros [= <-]. exists c, history, cp. simpl.
  apply Z.eqb_eq in Hcode. by rewrite Hfiles.
Qed.

(** ** Failures of the external commands *)



(** ** Determinism *)



(** ** The active environment *)

(** With the base environment active and no description file, the run ends
    with exit code 1 after one error record; no command is run. *)
Lemma base_environment_fatal safe_load yml_file output w :
  not_given yml_file = true →
  conda_default_env w = Some "base" →
  main safe_load yml_file output w =
  (Raise (SystemExit 1),
   add_logged (ERROR, "You are using the 'base' conda environment. Please activate another environment.") w).
Proof.
  intros Hnot Hbase.
  rewrite main_run, main_yml_contents_run, Hnot. by rewrite decide_True.
Qed.

(** With any other environment active, the export command is run next. *)
Lemma named_environment_exports yml_file w name :
  not_given yml_file = true →
  conda_default_env w = Some name → name ≠ "base" →
  main_yml_contents yml_file w =
  export_conda_env (add_logged (INFO, "Retrieving conda environment: " +:+ name) w).
Proof.
  intros Hnot Henv Hname.
  rewrite main_yml_contents_run, Hnot, Henv.
  rewrite decide_False by congruence. done.
Qed.

(** C4, where the code departs from it: with [CONDA_DEFAULT_ENV] unset and
    no description file, [get_active_conda_env] returns [None] without
    logging or exiting, and [main] goes on to run the export command; in the
    sample world the run ends with exit code 0 and a written file. *)
Theorem unset_environment_proceeds :
  (∀ fs wr sp lg inv,
     get_active_conda_env (World None fs wr sp lg inv)
     = (Ok None, World None fs wr sp lg inv)) ∧
  (∀ safe_load output fs wr sp lg inv,
     let run := main safe_load None output (World None fs wr sp lg inv) in
     ∃ more_logged more_invoked,
       logged run.2 = lg ++ (INFO, "Retrieving conda environment: None") :: more_logged ∧
       invoked run.2 = inv ++ conda_export_argv :: more_invoked) ∧
  (let run := main (sample_safe_load sample_doc) None "requirements.txt"
                (sample_world None ∅
                   (Some (Completed 0 "dependencies: [flask, {pip: [click=8.1]}]" ""))
                   (Some (Completed 0 sample_listing ""))) in
   run.1 = Ok () ∧ exit_code run.1 = 0%Z ∧
   invoked run.2 = [conda_export_argv; conda_list_argv] ∧
   logged run.2 =
     [(INFO, "Retrieving conda environment: None");
      (INFO, "requirements.txt generated with 2 packages at requirements.txt.")] ∧
   files run.2 !! "requirements.txt" = Some ("flask=2.3.1" +:+ nl +:+ "click=8.1.0" +:+ nl)).
Proof.
  split; [|split].
  - intros. by rewrite get_active_conda_env_run.
  - intros safe_load output fs wr sp lg inv run. subst run.
    rewrite main_run, main_yml_contents_run. simpl.
    rewrite export_conda_env_run. simpl.
    destruct (sp conda_export_argv) as [cp|]; [|by eexists [], []].
    destruct (returncode cp =? 0)%Z; [|simpl; rewrite <- app_assoc; by eexists _, []].
    destruct (parse_environment_yml safe_load (stdout cp)) as [history|e];
      [|by eexists [], []].
    rewrite get_conda_list_versions_run. simpl.
    destruct (sp conda_list_argv) as [cp'|];
      [|simpl; rewrite <- app_assoc; by eexists [], _].
    destruct (returncode cp' =? 0)%Z;
      [|simpl; rewrite <- !app_assoc; by eexists _, _].
    rewrite write_requirements_txt_run. simpl.
    destruct (wr output); simpl; rewrite <- !app_assoc; by eexists _, _.
  - vm_compute. repeat split.
Qed.


(** The end-to-end example: dependencies ["flask", {"pip": ["click=8.1"]}]
    with the listing lines "flask=2.3.1=h0" and "click=8.1.0=h2" give a file
    of exactly the two lines "flask=2.3.1" and "click=8.1.0". *)
Example end_to_end :
  let w := sample_world (Some "demo") {[ "environment.yml" := "dependencies: ..." ]}
             None (Some (Completed 0 sample_listing "")) in
  let run := main (sample_safe_load sample_doc) (Some "environment.yml") "requirements.txt" w in
  exit_code run.1 = 0%Z ∧
  files run.2 !! "requirements.txt" = Some ("flask=2.3.1" +:+ nl +:+ "click=8.1.0" +:+ nl).
Proof. vm_compute. by split. Qed.


(** * Further properties of the stages *)

(** ** Extractor: errors, composition, shape of the names *)

(** The name taken from a string has no '=' in it. *)
Lemma item0_split_no_sep s : ¬ PyStr.occurs "=" (item0 (PyStr.split "=" s)).
Proof.
  destruct (PyStrFacts.split_cases "=" s) as [[Hno ->]|(a & b & Hno & _ & ->)]; done.
Qed.

(** A description without a [dependencies] key raises [KeyError]; a
    description that is not a mapping at all (an empty document, a list, a
    string) raises [TypeError]. Nothing is extracted in either case. *)
Theorem extractor_missing_dependencies safe_load contents env :
  safe_load contents = Ok env →
  (∀ entries, env = YMap entries → Py.dict_has entries "dependencies" = false →
     parse_environment_yml safe_load contents = Raise (KeyError "dependencies")) ∧
  ((∀ entries, env ≠ YMap entries) →
     parse_environment_yml safe_load contents = Raise TypeError).
Proof.
  intros Hload. unfold parse_environment_yml. rewrite Hload. split.
  - intros entries -> Hhas. simpl.
    unfold Py.dict_has in Hhas.
    destruct (find (Py.is_key "dependencies") entries) as [entry|] eqn:Hfind; [|done].
    apply find_some in Hfind as [Hin Hkey].
    assert (existsb (Py.is_key "dependencies") entries = true) as Hex
      by (apply existsb_exists; eauto).
    congruence.
  - intros Hnot. destruct env as [d|b|t|items|entries]; try done.
    by destruct (Hnot entries).
Qed.

Lemma extractor_missing_dependencies_witness :
  let keyless := YMap [(YStr "name", YStr "demo"); (YStr "channels", YSeq [YStr "defaults"])] in
  parse_environment_yml (sample_safe_load keyless) "name: demo" = Raise (KeyError "dependencies") ∧
  parse_environment_yml (sample_safe_load (YScalar "null")) "" = Raise TypeError.
Proof.
  intros keyless. split.
  - apply (proj1 (extractor_missing_dependencies (sample_safe_load keyless) "name: demo"
                    keyless eq_refl) _ eq_refl). reflexivity.
  - apply (proj2 (extractor_missing_dependencies (sample_safe_load (YScalar "null")) ""
                    (YScalar "null") eq_refl)). discriminate.
Defined.

(** Extraction goes entry by entry: the names of a dependency list that is
    the concatenation of two lists are the names of the first followed by the
    names of the second, and an error of the first list is the error of the
    whole. Nothing is sorted and no duplicate is removed. *)
Theorem extractor_concat safe_load c1 c2 c12 env1 env2 env12 deps1 deps2 :
  safe_load c1 = Ok env1 → safe_load c2 = Ok env2 → safe_load c12 = Ok env12 →
  Py.subscript env1 "dependencies" = Ok (YSeq deps1) →
  Py.subscript env2 "dependencies" = Ok (YSeq deps2) →
  Py.subscript env12 "dependencies" = Ok (YSeq (deps1 ++ deps2)) →
  parse_environment_yml safe_load c12 =
    names1 ← parse_environment_yml safe_load c1;
    names2 ← parse_environment_yml safe_load c2;
    Ok (names1 ++ names2).
Proof.
  intros H1 H2 H12 Hd1 Hd2 Hd12. unfold parse_environment_yml.
  rewrite H1, H2, H12. simpl. rewrite Hd1, Hd2, Hd12.
  cbn [Py.iterate mbind result_bind].
  rewrite for_each_app.
  destruct (for_each parse_dep [] deps1) as [names1|e]; cbn [mbind result_bind]; [|done].
  apply parse_deps_acc.
Qed.

Lemma extractor_concat_witness :
  let doc deps := YMap [(YStr "dependencies", YSeq deps)] in
  let d1 := [YStr "flask=2"; YStr "numpy"] in
  let d2 := [YStr "flask"; YMap [(YStr "pip", YSeq [YStr "click=8.1"])]] in
  let load := λ contents : string,
                if decide (contents = "first") then Ok (doc d1)
                else if decide (contents = "second") then Ok (doc d2)
                else Ok (doc (d1 ++ d2)) in
  parse_environment_yml load "both" = Ok (["flask"; "numpy"] ++ ["flask"; "click"]).
Proof.
  intros doc d1 d2 load.
  rewrite (extractor_concat load "first" "second" "both" (doc d1) (doc d2) (doc (d1 ++ d2))
             d1 d2 eq_refl eq_refl eq_refl eq_refl eq_refl eq_refl).
  reflexivity.
Defined.

Lemma comprehension_strs (pkgs : list string) :
  comprehension Py.split_name (YStr <$> pkgs)
  = Ok ((λ pkg, item0 (PyStr.split "=" pkg)) <$> pkgs).
Proof. induction pkgs as [|pkg pkgs IH]; csimpl; [done|]. by rewrite IH. Qed.

(** A pip group whose value is a list of strings contributes the name of
    every one of them, in order, at the place of the group. The tests on
    'pip' and 'python=' are not applied inside a group: "pipdeptree" listed
    under pip is kept. *)
Theorem pip_group_flattened conda_packages entries key pkgs :
  find (Py.is_key "pip") entries = Some (key, YSeq (YStr <$> pkgs)) →
  parse_dep conda_packages (YMap entries)
  = Ok (conda_packages ++ ((λ pkg, item0 (PyStr.split "=" pkg)) <$> pkgs)).
Proof.
  intros Hfind. unfold parse_dep, Py.dict_has.
  assert (existsb (Py.is_key "pip") entries = true) as ->.
  { apply find_some in Hfind as [Hin Hkey]. apply existsb_exists. eauto. }
  unfold Py.subscript. rewrite Hfind.
  cbn [mbind result_bind Py.iterate snd].
  by rewrite comprehension_strs.
Qed.

Lemma pip_group_flattened_witness :
  parse_dep ["numpy"]
    (YMap [(YStr "pip", YSeq (YStr <$> ["pipdeptree"; "ipython=7.0"; "click=8.1=x"]))])
  = Ok (["numpy"] ++ ["pipdeptree"; "ipython"; "click"]).
Proof.
  apply (pip_group_flattened ["numpy"]
           [(YStr "pip", YSeq (YStr <$> ["pipdeptree"; "ipython=7.0"; "click=8.1=x"]))]
           (YStr "pip") ["pipdeptree"; "ipython=7.0"; "click=8.1=x"]).
  reflexivity.
Defined.

(** Plain strings never make the extractor raise. *)
Lemma plain_strings_ok conda_packages deps :
  forallb is_str deps = true →
  ∃ names, for_each parse_dep conda_packages deps = Ok names.
Proof.
  revert conda_packages. induction deps as [|dep deps IH]; intros acc Hall; simpl.
  - by exists acc.
  - simpl in Hall. apply andb_true_iff in Hall as [Hdep Hall].
    destruct dep as [d| | | |]; try done. simpl.
    destruct (_ && _); simpl; by apply IH.
Qed.

(** The first element that is not a string decides how the comprehension
    over a pip group ends. *)
Lemma comprehension_first_bad (strs : list string) bad rest :
  is_str bad = false →
  comprehension Py.split_name ((YStr <$> strs) ++ bad :: rest)
  = Raise (if is_bytes bad then TypeError else AttributeError).
Proof.
  intros Hbad. induction strs as [|str strs IH]; csimpl.
  - by destruct bad.
  - by rewrite IH.
Qed.

(** A pip group with nothing under it raises [TypeError]. A pip group
    that lists something that is not a string raises at the first such
    element: [TypeError] for a bytes value, whose [split] refuses the
    separator, and [AttributeError] for a number, a null, a nested list or
    a nested mapping, which have no [split]. The error ends the extraction,
    whatever follows the group. *)
Theorem pip_group_bad_value safe_load contents env before entries after key value :
  safe_load contents = Ok env →
  Py.subscript env "dependencies" = Ok (YSeq (before ++ YMap entries :: after)) →
  forallb is_str before = true →
  find (Py.is_key "pip") entries = Some (key, value) →
  (∀ text, value = YScalar text →
     parse_environment_yml safe_load contents = Raise TypeError) ∧
  (∀ (strs : list string) bad rest,
     value = YSeq ((YStr <$> strs) ++ bad :: rest) → is_str bad = false →
     parse_environment_yml safe_load contents
     = Raise (if is_bytes bad then TypeError else AttributeError)).
Proof.
  intros Hload Hdeps Hbefore Hfind.
  assert (Py.dict_has entries "pip" = true) as Hhas.
  { apply find_some in Hfind as [Hin Hkey]. apply existsb_exists. eauto. }
  destruct (plain_strings_ok [] before Hbefore) as [names Hnames].
  unfold parse_environment_yml. rewrite Hload. simpl. rewrite Hdeps.
  cbn [Py.iterate mbind result_bind]. rewrite for_each_app, Hnames.
  cbn [mbind result_bind for_each]. unfold parse_dep. rewrite Hhas.
  unfold Py.subscript. rewrite Hfind. cbn [snd].
  split.
  - by intros text ->.
  - intros strs bad rest -> Hbad. cbn [mbind result_bind Py.iterate].
    by rewrite (comprehension_first_bad strs bad rest Hbad).
Qed.

Lemma pip_group_bad_value_witness :
  let doc value := YMap [(YStr "dependencies",
                          YSeq ([YStr "numpy"] ++ YMap [(YStr "pip", value)] :: [YStr "flask"]))] in
  parse_environment_yml (sample_safe_load (doc (YScalar "null"))) "e" = Raise TypeError ∧
  parse_environment_yml (sample_safe_load (doc (YSeq [YStr "click"; YScalar "3"; YBytes "x"]))) "e"
    = Raise AttributeError ∧
  parse_environment_yml (sample_safe_load (doc (YSeq [YStr "click"; YBytes "x"; YScalar "3"]))) "e"
    = Raise TypeError.
Proof.
  intros doc. split; [|split].
  - apply (proj1 (pip_group_bad_value (sample_safe_load (doc (YScalar "null"))) "e"
                    (doc (YScalar "null")) [YStr "numpy"] [(YStr "pip", YScalar "null")]
                    [YStr "flask"] (YStr "pip") (YScalar "null")
                    eq_refl eq_refl eq_refl eq_refl) "null" eq_refl).
  - apply (proj2 (pip_group_bad_value
                    (sample_safe_load (doc (YSeq [YStr "click"; YScalar "3"; YBytes "x"]))) "e"
                    (doc (YSeq [YStr "click"; YScalar "3"; YBytes "x"])) [YStr "numpy"]
                    [(YStr "pip", YSeq [YStr "click"; YScalar "3"; YBytes "x"])]
                    [YStr "flask"] (YStr "pip") (YSeq [YStr "click"; YScalar "3"; YBytes "x"])
                    eq_refl eq_refl eq_refl eq_refl) ["click"] (YScalar "3") [YBytes "x"]
                    eq_refl eq_refl).
  - apply (proj2 (pip_group_bad_value
                    (sample_safe_load (doc (YSeq [YStr "click"; YBytes "x"; YScalar "3"]))) "e"
                    (doc (YSeq [YStr "click"; YBytes "x"; YScalar "3"])) [YStr "numpy"]
                    [(YStr "pip", YSeq [YStr "click"; YBytes "x"; YScalar "3"])]
                    [YStr "flask"] (YStr "pip") (YSeq [YStr "click"; YBytes "x"; YScalar "3"])
                    eq_refl eq_refl eq_refl eq_refl) ["click"] (YBytes "x") [YScalar "3"]
                    eq_refl eq_refl).
Defined.

(** A pinned plain string is cut at its first '=' only: what precedes it
    is the name, however many '=' follow. So "numpy==1.2" gives "numpy",
    and a comparison pin "numpy>=1.2" gives "numpy>". *)
Theorem pin_cut_at_first_equals conda_packages name rest :
  ¬ PyStr.occurs "=" name →
  PyStr.contains "pip" (name +:+ "=" +:+ rest) = false →
  PyStr.contains "python=" (name +:+ "=" +:+ rest) = false →
  parse_dep conda_packages (YStr (name +:+ "=" +:+ rest)) = Ok (conda_packages ++ [name]).
Proof.
  intros Hname Hpip Hpy. unfold parse_dep. rewrite Hpip, Hpy. simpl.
  change (name +:+ "=" +:+ rest) with (name +:+ String "=" rest).
  by rewrite PyStrFacts.split_first.
Qed.

Lemma pin_cut_at_first_equals_witness :
  parse_dep [] (YStr ("numpy" +:+ "=" +:+ "=1.2")) = Ok ([] ++ ["numpy"]) ∧
  parse_dep [] (YStr ("numpy>" +:+ "=" +:+ "1.2")) = Ok ([] ++ ["numpy>"]).
Proof.
  split.
  - apply (pin_cut_at_first_equals [] "numpy" "=1.2"); [|reflexivity..].
    apply PyStrFacts.not_contains_char. reflexivity.
  - apply (pin_cut_at_first_equals [] "numpy>" "1.2"); [|reflexivity..].
    apply PyStrFacts.not_contains_char. reflexivity.
Defined.

Lemma comprehension_names pkgs names :
  comprehension Py.split_name pkgs = Ok names →
  Forall (λ n, ¬ PyStr.occurs "=" n) names.
Proof.
  revert names. induction pkgs as [|pkg pkgs IH]; intros names; simpl.
  - intros [= <-]. constructor.
  - destruct pkg as [d| | | |]; simpl; try done.
    destruct (comprehension Py.split_name pkgs) as [bs|e]; simpl; [|done].
    intros [= <-]. constructor; [apply item0_split_no_sep | by apply IH].
Qed.

Lemma parse_dep_names conda_packages dep conda_packages' :
  parse_dep conda_packages dep = Ok conda_packages' →
  Forall (λ n, ¬ PyStr.occurs "=" n) conda_packages →
  Forall (λ n, ¬ PyStr.occurs "=" n) conda_packages'.
Proof.
  intros Hstep Hacc. destruct dep as [d|b|t|items|entries]; simpl in Hstep.
  - destruct (_ && _); injection Hstep as <-; [|done].
    apply Forall_app. split; [done|]. constructor; [apply item0_split_no_sep | constructor].
  - by injection Hstep as <-.
  - by injection Hstep as <-.
  - by injection Hstep as <-.
  - destruct (Py.dict_has entries "pip"); [|by injection Hstep as <-].
    destruct (find _ entries) as [entry|]; simpl in Hstep; [|done].
    destruct (Py.iterate entry.2) as [pkgs|e]; simpl in Hstep; [|done].
    destruct (comprehension Py.split_name pkgs) as [names|e] eqn:Hnames;
      simpl in Hstep; [|done].
    injection Hstep as <-. apply Forall_app. split; [done|].
    by apply (comprehension_names pkgs).
Qed.

Lemma parse_deps_names conda_packages deps names :
  for_each parse_dep conda_packages deps = Ok names →
  Forall (λ n, ¬ PyStr.occurs "=" n) conda_packages →
  Forall (λ n, ¬ PyStr.occurs "=" n) names.
Proof.
  revert conda_packages. induction deps as [|dep deps IH]; intros acc; simpl.
  - by intros [= <-].
  - destruct (parse_dep acc dep) as [acc'|e] eqn:Hstep; simpl; [|done].
    intros Hloop Hacc. apply (IH acc' Hloop). by apply (parse_dep_names acc dep).
Qed.

(** No extracted name has a '=' in it, wherever it came from: every name
    can be compared with the keys of the lookup mapping, which have none
    either. *)
Theorem extracted_names_without_equals safe_load contents names name :
  parse_environment_yml safe_load contents = Ok names →
  name ∈ names →
  PyStr.contains "=" name = false.
Proof.
  unfold parse_environment_yml.
  destruct (safe_load contents) as [env|e]; simpl; [|done].
  destruct (Py.subscript env "dependencies") as [dependencies|e]; simpl; [|done].
  destruct (Py.iterate dependencies) as [deps|e]; simpl; [|done].
  intros Hloop Hin. apply PyStrFacts.not_contains_char.
  assert (Forall (λ n, ¬ PyStr.occurs "=" n) names) as Hall
    by (apply (parse_deps_names [] deps names Hloop); constructor).
  by apply (proj1 (Forall_forall _ _) Hall).
Qed.

Lemma extracted_names_without_equals_witness :
  parse_environment_yml (sample_safe_load sample_doc) "e" = Ok ["flask"; "click"] ∧
  PyStr.contains "=" "click" = false.
Proof.
  split; [reflexivity|].
  apply (extracted_names_without_equals (sample_safe_load sample_doc) "e" ["flask"; "click"] "click").
  - reflexivity.
  - right. left.
Defined.

(** ** Lookup: shape of the entries, keys of the mapping, reading back *)

Lemma has_linebreak_app a b :
  has_linebreak (a +:+ b) = has_linebreak a || has_linebreak b.
Proof.
  induction a as [|c a IH]; [done|].
  change (String c a +:+ b) with (String c (a +:+ b)). simpl.
  by rewrite IH, orb_assoc.
Qed.

(** A line ended by a newline is the first line of the text. *)
Lemma splitlines_line line rest :
  has_linebreak line = false →
  PyStr.splitlines (line +:+ nl +:+ rest) = line :: PyStr.splitlines rest.
Proof.
  induction line as [|c line IH]; intros Hline.
  - change ("" +:+ nl +:+ rest) with (String PyStr.LF rest).
    by destruct rest.
  - simpl in Hline. apply orb_false_iff in Hline as [Hc Hline].
    change (String c line +:+ nl +:+ rest) with (String c (line +:+ nl +:+ rest)).
    simpl. by rewrite Hc, (IH Hline).
Qed.

Lemma splitlines_bounded n s line :
  (String.length s ≤ n)%nat → line ∈ PyStr.splitlines s → has_linebreak line = false.
Proof.
  revert s line. induction n as [|n IH]; intros s line Hlen.
  - destruct s; simpl in *; [by intros ?%elem_of_nil | lia].
  - destruct s as [|c s]; simpl; [by intros ?%elem_of_nil|].
    simpl in Hlen. destruct (PyStr.is_linebreak c) eqn:Hc.
    + intros [->|Hin]%elem_of_cons; [done|].
      destruct s as [|d s]; [by apply elem_of_nil in Hin|].
      destruct (_ && _).
      * apply (IH s); [simpl in Hlen; lia | done].
      * apply (IH (String d s)); [lia | done].
    + destruct (PyStr.splitlines s) as [|l ls] eqn:Hs.
      * intros ->%list_elem_of_singleton. simpl. by rewrite Hc.
      * intros [->|Hin]%elem_of_cons.
        -- simpl. rewrite Hc. apply (IH s); [lia|]. rewrite Hs. by left.
        -- apply (IH s); [lia|]. rewrite Hs. by right.
Qed.

(** No line of [splitlines] has a line boundary in it. *)
Lemma splitlines_no_linebreak s line :
  line ∈ PyStr.splitlines s → has_linebreak line = false.
Proof. by apply (splitlines_bounded (String.length s)). Qed.

(** A pinned entry has exactly two fields, and is kept whole. *)
Lemma pinned_fields entry :
  pinned entry →
  PyStr.contains "=" entry = true ∧
  ¬ PyStr.occurs "=" (item0 (PyStr.split "=" entry)) ∧
  keep_package_version [] entry = [entry].
Proof.
  intros (name & version & Hn & Hv & ->).
  change (name +:+ "=" +:+ version) with (name +:+ String "=" version).
  assert (PyStr.contains "=" (name +:+ String "=" version) = true) as Hin
    by (apply PyStrFacts.contains_spec; by exists name, version).
  unfold keep_package_version. rewrite Hin.
  rewrite PyStrFacts.split_first, PyStrFacts.split_without by done.
  done.
Qed.

Lemma listing_entry_shape out entry :
  entry ∈ conda_list_of_stdout out →
  pinned entry ∧ has_linebreak entry = false ∧ PyStr.contains "=" entry = true.
Proof.
  unfold conda_list_of_stdout. rewrite keep_package_version_lines. simpl.
  intros (kept & (line & <- & Hline)%in_map_iff & Hin)%list_elem_of_In%in_concat.
  apply list_elem_of_In in Hin. apply list_elem_of_In, splitlines_no_linebreak in Hline.
  unfold keep_package_version in Hin.
  destruct (PyStr.contains "=" line) eqn:Hc; [|by apply elem_of_nil in Hin].
  apply list_elem_of_singleton in Hin as ->.
  destruct (first_two_fields line Hc) as (name & version & Hn & Hv & Hshape & _ & ->).
  assert (pinned (name +:+ "=" +:+ version)) as Hpinned by (by exists name, version).
  split; [done|]. split; [|by apply pinned_fields].
  destruct Hshape as [<-|[build ->]]; [done|].
  change (name +:+ "=" +:+ version +:+ "=" +:+ build)
    with (name +:+ String "=" version +:+ String "=" build) in Hline.
  rewrite <- PyStrFacts.app_assoc, has_linebreak_app in Hline.
  by apply orb_false_iff in Hline as [? _].
Qed.

(** Every entry of the installed-version list is [name=version] with no
    further '=' and no line boundary, whatever the command printed: the
    test ['=' in pkg] of the filter stage never rejects one of them. *)
Theorem listing_entries_pinned out entry :
  entry ∈ conda_list_of_stdout out →
  pinned entry ∧ has_linebreak entry = false ∧ PyStr.contains "=" entry = true.
Proof. apply listing_entry_shape. Qed.

Lemma listing_entries_pinned_witness :
  "click=8.1.0" ∈ conda_list_of_stdout sample_listing ∧
  pinned "click=8.1.0" ∧ has_linebreak "click=8.1.0" = false ∧
  PyStr.contains "=" "click=8.1.0" = true.
Proof.
  assert ("click=8.1.0" ∈ conda_list_of_stdout sample_listing) as Hin by (right; left).
  split; [exact Hin|].
  exact (listing_entries_pinned sample_listing "click=8.1.0" Hin).
Defined.

(** Every entry with a '=' puts its name among the keys. *)
Lemma conda_dict_of_complete conda_list pkg :
  pkg ∈ conda_list → PyStr.contains "=" pkg = true →
  is_Some (conda_dict_of conda_list !! item0 (PyStr.split "=" pkg)).
Proof.
  rewrite conda_dict_of_fold.
  induction conda_list as [|x l IH] using rev_ind.
  - by intros ?%elem_of_nil.
  - intros Hin Hc. rewrite foldl_snoc. unfold store at 1.
    apply elem_of_app in Hin as [Hin|Hx].
    + destruct (PyStr.contains "=" x); [|by eauto].
      rewrite lookup_insert. case_decide; [by eexists | by eauto].
    + apply list_elem_of_singleton in Hx as ->.
      rewrite Hc, lookup_insert_eq. by eexists.
Qed.

(** The keys of the lookup mapping are exactly the names of the entries
    that have a '='; an entry without '=' adds no key. *)
Theorem lookup_keys conda_list name :
  is_Some (conda_dict_of conda_list !! name) ↔
  ∃ pkg, pkg ∈ conda_list ∧ PyStr.contains "=" pkg = true ∧
         item0 (PyStr.split "=" pkg) = name.
Proof.
  split.
  - intros [v Hv]. exists v. by apply conda_dict_of_sound.
  - intros (pkg & Hin & Hc & <-). by apply conda_dict_of_complete.
Qed.

Lemma lookup_keys_witness :
  is_Some (conda_dict_of ["a=1"; "noversion"; "b=2"] !! "b") ∧
  ¬ is_Some (conda_dict_of ["a=1"; "noversion"; "b=2"] !! "noversion").
Proof.
  split.
  - apply (proj2 (lookup_keys ["a=1"; "noversion"; "b=2"] "b")).
    exists "b=2". split; [|by split]. right. right. left.
  - intros (pkg & Hin & Hc & Hname)%(proj1 (lookup_keys _ _)).
    repeat (apply elem_of_cons in Hin as [->|Hin]; [by vm_compute in Hc, Hname|]).
    by apply elem_of_nil in Hin.
Defined.

(** Reading back a text made of pinned entries, one per line, gives the
    entries. *)
Lemma conda_list_of_requirements_text entries :
  Forall (λ e, pinned e ∧ has_linebreak e = false) entries →
  conda_list_of_stdout (requirements_text entries) = entries.
Proof.
  induction 1 as [|e l [Hpin Hline] _ IH]; [done|].
  rewrite requirements_text_cons. unfold conda_list_of_stdout in *.
  rewrite splitlines_line by done. simpl.
  rewrite keep_package_version_lines, keep_package_version_acc.
  destruct (pinned_fields e Hpin) as (_ & _ & ->).
  rewrite keep_package_version_lines in IH. simpl in IH. by rewrite IH.
Qed.

(** The lines of a text made of entries without line boundary, one per
    line, are the entries. *)
Lemma splitlines_requirements_text entries :
  Forall (λ e, has_linebreak e = false) entries →
  PyStr.splitlines (requirements_text entries) = entries.
Proof.
  induction 1 as [|e l Hline _ IH]; [done|].
  rewrite requirements_text_cons, splitlines_line by done. by rewrite IH.
Qed.

(** The lines of the text written for the filtered entries are those
    entries. *)
Lemma written_text_lines history_packages out :
  PyStr.splitlines
    (requirements_text
       (omap (λ pkg, conda_dict_of (conda_list_of_stdout out) !! pkg) history_packages))
  = omap (λ pkg, conda_dict_of (conda_list_of_stdout out) !! pkg) history_packages.
Proof.
  apply splitlines_requirements_text, Forall_forall.
  intros e (pkg & _ & (Hin & _)%conda_dict_of_sound)%list_elem_of_omap.
  by destruct (listing_entry_shape out e Hin) as (_ & ? & _).
Qed.

(** C3: after a run that wrote the requirements file, the file is made of
    its lines, each followed by a newline, and every line of the file has a
    name that is among the extracted names and is a key of the lookup
    mapping, whose value for that name is the line. *)
Theorem written_entries_in_intersection safe_load yml_file output w w' :
  main safe_load yml_file output w = (Ok (), w') →
  ∃ yml_contents history_packages cp text,
    (main_yml_contents yml_file w).1 = Ok yml_contents ∧
    parse_environment_yml safe_load yml_contents = Ok history_packages ∧
    spawn w conda_list_argv = Some cp ∧
    files w' !! output = Some text ∧
    text = requirements_text (PyStr.splitlines text) ∧
    ∀ line, line ∈ PyStr.splitlines text →
      item0 (PyStr.split "=" line) ∈ history_packages ∧
      conda_dict_of (conda_list_of_stdout (stdout cp)) !! item0 (PyStr.split "=" line)
      = Some line.
Proof.
  intros (c & history & cp & Hc & Hparse & Hspawn & _ & _ & Hfiles)%main_ok_inv.
  exists c, history, cp,
    (requirements_text
       (omap (λ pkg, conda_dict_of (conda_list_of_stdout (stdout cp)) !! pkg) history)).
  repeat (split; [done|]). rewrite written_text_lines. split; [|split; [done|]].
  - rewrite Hfiles. apply lookup_insert_eq.
  - intros line Hline.
    apply (filtered_entry_names history (conda_list_of_stdout (stdout cp)) _ line
             (filter_conda_list_with_history_omap _ _) Hline).
Qed.

Lemma written_entries_in_intersection_witness :
  let w := sample_world (Some "demo") ∅
             (Some (Completed 0 "dependencies: [zlib, flask, {pip: [click=8.1]}]" ""))
             (Some (Completed 0 sample_listing "")) in
  let load := sample_safe_load
                (YMap [(YStr "dependencies",
                        YSeq [YStr "zlib"; YStr "flask";
                              YMap [(YStr "pip", YSeq [YStr "click=8.1"])]])]) in
  ∃ w',
    main load None "requirements.txt" w = (Ok (), w') ∧
    ∃ yml_contents history_packages cp text,
      (main_yml_contents None w).1 = Ok yml_contents ∧
      parse_environment_yml load yml_contents = Ok history_packages ∧
      spawn w conda_list_argv = Some cp ∧
      files w' !! "requirements.txt" = Some text ∧
      text = requirements_text (PyStr.splitlines text) ∧
      ∀ line, line ∈ PyStr.splitlines text →
        item0 (PyStr.split "=" line) ∈ history_packages ∧
        conda_dict_of (conda_list_of_stdout (stdout cp)) !! item0 (PyStr.split "=" line)
        = Some line.
Proof.
  intros w load. eexists. split; [vm_compute; reflexivity|].
  eapply (written_entries_in_intersection load None "requirements.txt" w).
  vm_compute. reflexivity.
Defined.

(** The written file is itself a listing the lookup parser accepts: parsed
    back, it gives exactly the entries that were written, and filtering the
    same names against it gives the same entries again. *)
Theorem written_file_reads_back history_packages out entries :
  filter_conda_list_with_history history_packages (conda_list_of_stdout out) = Ok entries →
  conda_list_of_stdout (requirements_text entries) = entries ∧
  filter_conda_list_with_history history_packages
    (conda_list_of_stdout (requirements_text entries)) = Ok entries.
Proof.
  intros Hfilter.
  assert (∀ e, e ∈ entries →
            ∃ pkg, pkg ∈ history_packages ∧
                   conda_dict_of (conda_list_of_stdout out) !! pkg = Some e) as Hfrom.
  { intros e He. rewrite filter_conda_list_with_history_omap in Hfilter.
    injection Hfilter as <-. by apply list_elem_of_omap in He. }
  assert (conda_list_of_stdout (requirements_text entries) = entries) as Hback.
  { apply conda_list_of_requirements_text, Forall_forall. intros e He.
    destruct (Hfrom e He) as (pkg & _ & (Hin & _)%conda_dict_of_sound).
    destruct (listing_entry_shape out e Hin) as (? & ? & _). done. }
  split; [done|]. rewrite Hback.
  rewrite filter_conda_list_with_history_omap in Hfilter |- *.
  injection Hfilter as Hentries.
  transitivity (Ok (omap (λ pkg, conda_dict_of (conda_list_of_stdout out) !! pkg)
                         history_packages)); [|by rewrite Hentries].
  f_equal.
  apply list_omap_ext, Forall2_same_length_lookup. split; [done|].
  intros i n n' Hn [= <-]%(eq_trans (eq_sym Hn)).
  apply list_elem_of_lookup_2 in Hn.
  destruct (conda_dict_of (conda_list_of_stdout out) !! n) as [v|] eqn:Hv.
  - assert (v ∈ entries) as Hvin
      by (rewrite <- Hentries; apply list_elem_of_omap; eauto).
    destruct (conda_dict_of_sound _ _ _ Hv) as (_ & Hc & Hname).
    destruct (conda_dict_of_complete entries v Hvin Hc) as [v' Hv'].
    rewrite Hname in Hv'.
    rewrite Hv'. f_equal.
    destruct (conda_dict_of_sound _ _ _ Hv') as (Hin' & _ & Hname').
    destruct (Hfrom v' Hin') as (pkg & _ & Hpkg).
    destruct (conda_dict_of_sound _ _ _ Hpkg) as (_ & _ & Hn').
    congruence.
  - destruct (conda_dict_of entries !! n) as [v'|] eqn:Hv'; [|done].
    destruct (conda_dict_of_sound _ _ _ Hv') as (Hin' & _ & Hname').
    destruct (Hfrom v' Hin') as (pkg & _ & Hpkg).
    destruct (conda_dict_of_sound _ _ _ Hpkg) as (_ & _ & Hn').
    congruence.
Qed.

Lemma written_file_reads_back_witness :
  let entries := ["click=8.1.0"; "flask=2.3.1"; "click=8.1.0"] in
  filter_conda_list_with_history ["click"; "zlib"; "flask"; "click"]
    (conda_list_of_stdout sample_listing) = Ok entries ∧
  conda_list_of_stdout (requirements_text entries) = entries ∧
  filter_conda_list_with_history ["click"; "zlib"; "flask"; "click"]
    (conda_list_of_stdout (requirements_text entries)) = Ok entries.
Proof.
  intros entries. split; [reflexivity|].
  apply (written_file_reads_back ["click"; "zlib"; "flask"; "click"] sample_listing entries).
  reflexivity.
Defined.

(** ** Filter: composition and the empty result *)

Lemma omap_length_le {A B : Type} (f : A → option B) (l : list A) :
  (length (omap f l) ≤ length l)%nat.
Proof.
  induction l as [|a l IH]; csimpl; [done|].
  destruct (f a); simpl; lia.
Qed.

(** Filtering goes name by name: the entries for a concatenation of two
    name lists are the entries for the first followed by the entries for
    the second, so a name listed twice gets its entry twice; and there are
    never more entries than names. *)
Theorem filter_concat names1 names2 conda_list :
  filter_conda_list_with_history (names1 ++ names2) conda_list =
    (entries1 ← filter_conda_list_with_history names1 conda_list;
     entries2 ← filter_conda_list_with_history names2 conda_list;
     Ok (entries1 ++ entries2)) ∧
  ∀ entries, filter_conda_list_with_history names1 conda_list = Ok entries →
             (length entries ≤ length names1)%nat.
Proof.
  rewrite !filter_conda_list_with_history_omap. split.
  - simpl. by rewrite omap_app.
  - intros entries [= <-]. apply omap_length_le.
Qed.

Lemma filter_concat_witness :
  filter_conda_list_with_history (["b"; "a"] ++ ["zlib"; "b"]) ["a=1"; "b=2"]
    = Ok (["b=2"; "a=1"] ++ ["b=2"]) ∧
  (length ["b=2"; "a=1"] ≤ length ["b"; "a"])%nat.
Proof.
  split.
  - by rewrite (proj1 (filter_concat ["b"; "a"] ["zlib"; "b"] ["a=1"; "b=2"])).
  - apply (proj2 (filter_concat ["b"; "a"] [] ["a=1"; "b=2"])). reflexivity.
Defined.

Lemma omap_none_nil {A B : Type} (f : A → option B) (l : list A) :
  (∀ a, a ∈ l → f a = None) → omap f l = [].
Proof.
  induction l as [|a l IH]; intros Hnone; [done|]. csimpl.
  rewrite (Hnone a) by left. apply IH. intros b Hb. apply Hnone. by right.
Qed.

(** The filter returns no entry exactly when no name is a key of the
    mapping; in particular for an empty installed-version list. *)
Theorem filter_nothing_found history_packages conda_list :
  filter_conda_list_with_history history_packages conda_list = Ok [] ↔
  ∀ name, name ∈ history_packages → conda_dict_of conda_list !! name = None.
Proof.
  rewrite filter_conda_list_with_history_omap. split.
  - intros [= Hnil] name Hin.
    destruct (conda_dict_of conda_list !! name) as [v|] eqn:Hv; [|done].
    assert (v ∈ omap (λ pkg, conda_dict_of conda_list !! pkg) history_packages) as Hvin
      by (apply list_elem_of_omap; eauto).
    rewrite Hnil in Hvin. by apply elem_of_nil in Hvin.
  - intros Hnone. f_equal. by apply omap_none_nil.
Qed.

Lemma filter_nothing_found_witness :
  filter_conda_list_with_history ["flask"; "click"] [] = Ok [] ∧
  filter_conda_list_with_history ["flask"] ["Flask=2.3.1"; "click=8"] = Ok [].
Proof.
  split.
  - apply (proj2 (filter_nothing_found ["flask"; "click"] [])). intros name _. reflexivity.
  - apply (proj2 (filter_nothing_found ["flask"] ["Flask=2.3.1"; "click=8"])).
    intros name ->%list_elem_of_singleton. reflexivity.
Defined.

(** ** Whole runs *)

(** [main] once the description is parsed and the listing command has
    succeeded: only the write is left. *)
Lemma main_after_listing safe_load yml_file output w yml_contents w1 history_packages cp :
  main_yml_contents yml_file w = (Ok yml_contents, w1) →
  parse_environment_yml safe_load yml_contents = Ok history_packages →
  spawn w conda_list_argv = Some cp → returncode cp = 0%Z →
  main safe_load yml_file output w =
  write_requirements_txt
    (omap (λ pkg, conda_dict_of (conda_list_of_stdout (stdout cp)) !! pkg) history_packages)
    output (add_invoked conda_list_argv w1).
Proof.
  intros Hc Hparse Hspawn Hcode.
  pose proof (main_yml_contents_frame yml_file w) as (_ & _ & _ & Hsp).
  rewrite Hc in Hsp. simpl in Hsp.
  rewrite main_run, Hc, Hparse, get_conda_list_versions_run, Hsp, Hspawn, Hcode.
  done.
Qed.



(** After a normal return the output file is made of its lines, each
    followed by a newline; the last log record reports exactly the number
    of lines of the file, which is at most the number of extracted names;
    and the listing command was the last command run. *)
Theorem reported_count_is_written_count safe_load yml_file output w w' :
  main safe_load yml_file output w = (Ok (), w') →
  ∃ yml_contents w1 history_packages text,
    main_yml_contents yml_file w = (Ok yml_contents, w1) ∧
    parse_environment_yml safe_load yml_contents = Ok history_packages ∧
    files w' !! output = Some text ∧
    text = requirements_text (PyStr.splitlines text) ∧
    (length (PyStr.splitlines text) ≤ length history_packages)%nat ∧
    logged w' = logged w1 ++
      [(INFO, "requirements.txt generated with " +:+ pretty (length (PyStr.splitlines text))
              +:+ " packages at " +:+ output +:+ ".")] ∧
    invoked w' = invoked w1 ++ [conda_list_argv].
Proof.
  intros Hrun.
  destruct (main_ok_inv _ _ _ _ _ Hrun) as (c & h & cp & Hc & Hparse & Hspawn & Hcode & Hw & _).
  pose proof (main_yml_contents_frame yml_file w) as (_ & _ & Hwr & _).
  destruct (main_yml_contents yml_file w) as [r w1] eqn:Hsrc.
  simpl in Hc, Hwr. subst r.
  rewrite (main_after_listing _ _ _ _ _ _ _ _ Hsrc Hparse Hspawn Hcode) in Hrun.
  rewrite write_requirements_txt_run in Hrun. simpl in Hrun.
  rewrite Hwr, Hw in Hrun. injection Hrun as <-.
  exists c, w1, h,
    (requirements_text
       (omap (λ pkg, conda_dict_of (conda_list_of_stdout (stdout cp)) !! pkg) h)).
  rewrite written_text_lines. simpl.
  repeat split; [done | apply lookup_insert_eq | apply omap_length_le].
Qed.

Lemma reported_count_is_written_count_witness :
  let w := sample_world (Some "demo") ∅ (Some (Completed 0 "dependencies: ..." ""))
             (Some (Completed 0 sample_listing "")) in
  ∃ w', main (sample_safe_load sample_doc) None "out.txt" w = (Ok (), w') ∧
    ∃ yml_contents w1 history_packages text,
      main_yml_contents None w = (Ok yml_contents, w1) ∧
      parse_environment_yml (sample_safe_load sample_doc) yml_contents = Ok history_packages ∧
      files w' !! "out.txt" = Some text ∧
      text = requirements_text (PyStr.splitlines text) ∧
      (length (PyStr.splitlines text) ≤ length history_packages)%nat ∧
      logged w' = logged w1 ++
        [(INFO, "requirements.txt generated with " +:+ pretty (length (PyStr.splitlines text))
                +:+ " packages at " +:+ "out.txt" +:+ ".")] ∧
      invoked w' = invoked w1 ++ [conda_list_argv].
Proof.
  intros w. eexists. split; [vm_compute; reflexivity|].
  eapply (reported_count_is_written_count (sample_safe_load sample_doc) None "out.txt" w).
  vm_compute. reflexivity.
Defined.



(** With a description file given, the environment variable plays no part
    and the export command is not run: the run ends the same way, with the
    same files and log, whatever environment is active (the base
    environment included), and runs the listing command at most. *)
Theorem description_file_bypasses_environment safe_load yml_file output
    env env' fs wr sp lg inv :
  not_given yml_file = false →
  let run := main safe_load yml_file output (World env fs wr sp lg inv) in
  let run' := main safe_load yml_file output (World env' fs wr sp lg inv) in
  run.1 = run'.1 ∧ files run.2 = files run'.2 ∧ logged run.2 = logged run'.2 ∧
  invoked run.2 = invoked run'.2 ∧
  (invoked run.2 = inv ∨ invoked run.2 = inv ++ [conda_list_argv]).
Proof.
  intros Hgiven run run'. subst run run'.
  rewrite !main_run, !main_yml_contents_run, Hgiven. simpl.
  destruct (fs !! default "" yml_file) as [text|]; [|simpl; tauto].
  destruct (parse_environment_yml safe_load text) as [h|e]; [|simpl; tauto].
  rewrite !get_conda_list_versions_run. simpl.
  destruct (sp conda_list_argv) as [cp|]; [|simpl; tauto].
  destruct (returncode cp =? 0)%Z; [|simpl; tauto].
  rewrite !write_requirements_txt_run. simpl.
  destruct (wr output); simpl; tauto.
Qed.

Lemma description_file_bypasses_environment_witness :
  let listing := sample_spawn None (Some (Completed 0 sample_listing "")) in
  let fs : gmap string string := {[ "env.yml" := "dependencies: ..." ]} in
  let run := main (sample_safe_load sample_doc) (Some "env.yml") "out.txt"
               (World (Some "base") fs (λ _, true) listing [] []) in
  let run' := main (sample_safe_load sample_doc) (Some "env.yml") "out.txt"
                (World None fs (λ _, true) listing [] []) in
  run.1 = Ok () ∧
  run.1 = run'.1 ∧ files run.2 = files run'.2 ∧ logged run.2 = logged run'.2 ∧
  invoked run.2 = invoked run'.2 ∧
  (invoked run.2 = [] ∨ invoked run.2 = [] ++ [conda_list_argv]).
Proof.
  intros listing fs. split; [vm_compute; reflexivity|].
  apply (description_file_bypasses_environment (sample_safe_load sample_doc) (Some "env.yml")
           "out.txt" (Some "base") None fs (λ _, true) listing [] []).
  reflexivity.
Defined.

(** When a conda command cannot be started at all, the [OSError] is not
    caught by the handlers for failed commands: the run ends with that
    exception and exit code 1, without logging an error record and without
    writing a file. *)
Theorem conda_not_startable :
  (∀ safe_load yml_file output w,
     not_given yml_file = true →
     conda_default_env w ≠ Some "base" →
     spawn w conda_export_argv = None →
     let run := main safe_load yml_file output w in
     run.1 = Raise OSError ∧ exit_code run.1 = 1%Z ∧
     logged run.2 = logged w ++
       [(INFO, "Retrieving conda environment: " +:+ format_optional (conda_default_env w))] ∧
     files run.2 = files w) ∧
  (∀ safe_load yml_file output w yml_contents w1 history_packages,
     main_yml_contents yml_file w = (Ok yml_contents, w1) →
     parse_environment_yml safe_load yml_contents = Ok history_packages →
     spawn w conda_list_argv = None →
     let run := main safe_load yml_file output w in
     run.1 = Raise OSError ∧ exit_code run.1 = 1%Z ∧
     logged run.2 = logged w1 ∧ files run.2 = files w).
Proof.
  split.
  - intros safe_load yml_file output w Hnot Hbase Hspawn run. subst run.
    rewrite main_run, main_yml_contents_run, Hnot.
    rewrite decide_False by done.
    rewrite export_conda_env_run. simpl. by rewrite Hspawn.
  - intros safe_load yml_file output w c w1 h Hc Hparse Hspawn run. subst run.
    pose proof (main_yml_contents_frame yml_file w) as (_ & Hfiles & _ & Hsp).
    rewrite Hc in Hfiles, Hsp. simpl in Hfiles, Hsp.
    rewrite main_run, Hc, Hparse, get_conda_list_versions_run, Hsp, Hspawn.
    done.
Qed.

Lemma conda_not_startable_witness :
  let w := sample_world (Some "demo") {[ "env.yml" := "dependencies: ..." ]} None None in
  (let run := main (sample_safe_load sample_doc) None "out.txt" w in
   run.1 = Raise OSError ∧ exit_code run.1 = 1%Z ∧
   logged run.2 = [(INFO, "Retrieving conda environment: demo")] ∧
   files run.2 = files w) ∧
  (let run := main (sample_safe_load sample_doc) (Some "env.yml") "out.txt" w in
   run.1 = Raise OSError ∧ exit_code run.1 = 1%Z ∧
   logged run.2 = [] ∧ files run.2 = files w).
Proof.
  intros w. split.
  - apply (proj1 conda_not_startable (sample_safe_load sample_doc) None "out.txt" w);
      [reflexivity | discriminate | reflexivity].
  - apply (proj2 conda_not_startable (sample_safe_load sample_doc) (Some "env.yml")
             "out.txt" w "dependencies: ..." w ["flask"; "click"]); reflexivity.
Defined.

(** When no extracted name is a key of the lookup mapping (an empty
    listing, or names that differ in case), the run still returns normally:
    it writes an empty output file and reports 0 packages. *)
Theorem nothing_matched_writes_empty_file safe_load yml_file output w
    yml_contents w1 history_packages cp :
  main_yml_contents yml_file w = (Ok yml_contents, w1) →
  parse_environment_yml safe_load yml_contents = Ok history_packages →
  spawn w conda_list_argv = Some cp → returncode cp = 0%Z →
  writable w output = true →
  (∀ name, name ∈ history_packages →
           conda_dict_of (conda_list_of_stdout (stdout cp)) !! name = None) →
  let run := main safe_load yml_file output w in
  run.1 = Ok () ∧ exit_code run.1 = 0%Z ∧
  files run.2 !! output = Some "" ∧
  logged run.2 = logged w1 ++
    [(INFO, "requirements.txt generated with 0 packages at " +:+ output +:+ ".")].
Proof.
  intros Hc Hparse Hspawn Hcode Hw Hnone run. subst run.
  pose proof (main_yml_contents_frame yml_file w) as (_ & _ & Hwr & _).
  rewrite Hc in Hwr. simpl in Hwr.
  rewrite (main_after_listing _ _ _ _ _ _ _ _ Hc Hparse Hspawn Hcode).
  rewrite write_requirements_txt_run. simpl. rewrite Hwr, Hw. simpl.
  rewrite (omap_none_nil _ _ Hnone). simpl. repeat split. apply lookup_insert_eq.
Qed.

Lemma nothing_matched_writes_empty_file_witness :
  let w := sample_world None {[ "env.yml" := "dependencies: ..." ]} None
             (Some (Completed 0 "" "")) in
  let run := main (sample_safe_load sample_doc) (Some "env.yml") "out.txt" w in
  run.1 = Ok () ∧ exit_code run.1 = 0%Z ∧
  files run.2 !! "out.txt" = Some "" ∧
  logged run.2 = [] ++ [(INFO, "requirements.txt generated with 0 packages at out.txt.")].
Proof.
  intros w.
  apply (nothing_matched_writes_empty_file (sample_safe_load sample_doc) (Some "env.yml")
           "out.txt" w "dependencies: ..." w ["flask"; "click"] (Completed 0 "" ""));
    try reflexivity.
Defined.

(** The extractor itself never exits: what it raises is a [KeyError], a
    [TypeError] or an [AttributeError], or comes from the YAML parser. *)
Lemma parse_dep_no_exit conda_packages dep e :
  parse_dep conda_packages dep = Raise e → is_exit e = false.
Proof.
  destruct dep as [d|b|t|items|entries]; simpl; try done.
  - by destruct (_ && _).
  - destruct (Py.dict_has entries "pip"); [|done].
    destruct (find _ entries) as [entry|]; simpl; [|by intros [= <-]].
    destruct (Py.iterate entry.2) as [pkgs|e'] eqn:Hit; simpl.
    + destruct (comprehension Py.split_name pkgs) as [names|e'] eqn:Hcomp; simpl; [done|].
      intros [= <-]. clear Hit. revert e' Hcomp.
      induction pkgs as [|pkg pkgs IH]; intros e'; simpl; [done|].
      destruct pkg as [d| | | |]; simpl; try by intros [= <-].
      destruct (comprehension Py.split_name pkgs) as [bs|e'']; simpl; [done|].
      intros [= <-]. by apply IH.
    + intros [= <-]. by destruct entry.2; simplify_eq/=.
Qed.

Lemma parse_environment_yml_no_exit safe_load contents e :
  (∀ text e', safe_load text = Raise e' → is_exit e' = false) →
  parse_environment_yml safe_load contents = Raise e → is_exit e = false.
Proof.
  intros Hload. unfold parse_environment_yml.
  destruct (safe_load contents) as [env|e'] eqn:Henv; simpl;
    [|intros [= <-]; by apply (Hload contents)].
  destruct (Py.subscript env "dependencies") as [dependencies|e'] eqn:Hsub; simpl.
  - destruct (Py.iterate dependencies) as [deps|e'] eqn:Hit; simpl.
    + clear Hit. generalize (@nil string).
      induction deps as [|dep deps IH]; intros acc; simpl; [done|].
      destruct (parse_dep acc dep) as [acc'|e'] eqn:Hstep; simpl; [apply IH|].
      intros [= <-]. by apply (parse_dep_no_exit acc dep).
    + intros [= <-]. by destruct dependencies; simplify_eq/=.
  - intros [= <-]. destruct env as [| | | |entries]; simplify_eq/=; try done.
    by destruct (find _ entries); simplify_eq/=.
Qed.

(** The exit code of [main] is 0 or 1, whatever goes wrong, as long as the
    YAML parser does not itself call [sys.exit]: every [sys.exit] of the
    program has code 1, and any other exception ends the process with
    code 1. *)
Theorem exit_codes safe_load yml_file output w :
  (∀ text e, safe_load text = Raise e → is_exit e = false) →
  exit_code (main safe_load yml_file output w).1 = 0%Z ∨
  exit_code (main safe_load yml_file output w).1 = 1%Z.
Proof.
  intros Hload.
  rewrite main_run, main_yml_contents_run.
  assert (∀ w1 c,
            let r := (match parse_environment_yml safe_load c with
                      | Ok history_packages =>
                          match get_conda_list_versions w1 with
                          | (Ok conda_list, w2) =>
                              write_requirements_txt
                                (omap (λ pkg, conda_dict_of conda_list !! pkg)
                                      history_packages) output w2
                          | (Raise e, w2) => (Raise e, w2)
                          end
                      | Raise e => (Raise e, w1)
                      end).1 in
            exit_code r = 0%Z ∨ exit_code r = 1%Z) as Hrest.
  { intros w1 c.
    destruct (parse_environment_yml safe_load c) as [h|e] eqn:Hparse; simpl.
    - rewrite get_conda_list_versions_run.
      destruct (spawn w1 conda_list_argv) as [cp|]; [|by right].
      destruct (returncode cp =? 0)%Z; [|by right].
      rewrite write_requirements_txt_run. simpl.
      destruct (writable w1 output); [by left | by right].
    - apply (parse_environment_yml_no_exit _ _ _ Hload) in Hparse.
      destruct e; by right. }
  destruct (not_given yml_file).
  - destruct (decide _); [by right|].
    rewrite export_conda_env_run. simpl.
    destruct (spawn w conda_export_argv) as [cp|]; [|by right].
    destruct (returncode cp =? 0)%Z; [apply Hrest | by right].
  - destruct (files w !! default "" yml_file); [apply Hrest | by right].
Qed.

Lemma exit_codes_witness :
  let bad_doc := YMap [(YStr "dependencies", YSeq [YMap [(YStr "pip", YScalar "null")]])] in
  let w := sample_world (Some "demo") ∅ (Some (Completed 0 "dependencies: ..." "")) None in
  (∀ text e, sample_safe_load bad_doc text = Raise e → is_exit e = false) ∧
  (exit_code (main (sample_safe_load bad_doc) None "out.txt" w).1 = 0%Z ∨
   exit_code (main (sample_safe_load bad_doc) None "out.txt" w).1 = 1%Z).
Proof.
  intros bad_doc w.
  assert (∀ text e, sample_safe_load bad_doc text = Raise e → is_exit e = false) as Hload
    by (intros text e [=]).
  split; [exact Hload|].
  apply (exit_codes (sample_safe_load bad_doc) None "out.txt" w Hload).
Defined.

(** The listing is read line by line: a first line without line boundary
    in it contributes its entry, if it has a '=', in front of the entries of
    the rest; header and comment lines without '=' leave no trace. *)
Theorem listing_line_by_line line rest :
  has_linebreak line = false →
  conda_list_of_stdout (line +:+ nl +:+ rest) =
    (if PyStr.contains "=" line
     then [PyStr.join "=" (take 2 (PyStr.split "=" line))]
     else []) ++ conda_list_of_stdout rest.
Proof.
  intros Hline. unfold conda_list_of_stdout.
  rewrite splitlines_line by done. simpl.
  rewrite keep_package_version_lines, (keep_package_version_lines [] (PyStr.splitlines rest)).
  unfold keep_package_version at 1. by destruct (PyStr.contains "=" line).
Qed.

Lemma listing_line_by_line_witness :
  conda_list_of_stdout ("# packages in environment" +:+ nl +:+ "a=1=x" +:+ nl +:+ "b=2" +:+ nl)
  = [] ++ conda_list_of_stdout ("a=1=x" +:+ nl +:+ "b=2" +:+ nl).
Proof.
  apply (listing_line_by_line "# packages in environment" ("a=1=x" +:+ nl +:+ "b=2" +:+ nl)).
  reflexivity.
Defined.
